(** * bMCP: the concurrency and transport core, embedded and verified

    A shallow embedding of the job-handoff layer of the bMCP add-on
    (result queue, pending-operations registry, SSE session queue,
    JSON-RPC dispatch, tools/call output limiting and server shutdown),
    followed by the properties established about it.

    Python objects that the code mutates behind a lock are modelled by
    explicit state passing: every method takes the object's state and
    returns its result together with the new state.  One method call is
    one atomic step, which is what the [with self._lock:] blocks of the
    source provide.  Exceptions are values of [outcome]. *)

From stdpp Require Import base option list gmap strings pretty.
From Stdlib Require Import ZArith Ascii.

Set Warnings "-register-all".
Local Open Scope Z_scope.

(** ** Python exceptions and fallible computations *)

(** The exception classes the modelled code raises or catches.  Only
    subclasses of [Exception] are represented; [other_exception] stands
    for any further such class, with a flag telling whether it derives
    from [ValueError] (as [json.JSONDecodeError] does). *)
Inductive exn_class : Type :=
  | ValueError
  | RuntimeError
  | TypeError
  | AttributeError
  | KeyError
  | TimeoutError
  | StopIteration
  | other_exception (name : string) (derives_value_error : bool).

Record exn : Type := mk_exn { exn_type : exn_class; exn_str : string }.

(** [isinstance(e, ValueError)], the test behind [except ValueError]. *)
Definition is_ValueError (e : exn) : bool :=
  match exn_type e with
  | ValueError => true
  | other_exception _ b => b
  | _ => false
  end.

(** [isinstance(e, TimeoutError)] *)
Definition is_TimeoutError (e : exn) : bool :=
  match exn_type e with
  | TimeoutError => true
  | _ => false
  end.

(** [isinstance(e, RuntimeError)] *)
Definition is_RuntimeError (e : exn) : bool :=
  match exn_type e with
  | RuntimeError => true
  | _ => false
  end.

(** [type(e).__name__] *)
Definition exn_name (e : exn) : string :=
  match exn_type e with
  | ValueError => "ValueError"
  | RuntimeError => "RuntimeError"
  | TypeError => "TypeError"
  | AttributeError => "AttributeError"
  | KeyError => "KeyError"
  | TimeoutError => "TimeoutError"
  | StopIteration => "StopIteration"
  | other_exception n _ => n
  end.

Inductive outcome (A : Type) : Type :=
  | Ok (a : A)
  | Raise (e : exn).
Arguments Ok {A} a.
Arguments Raise {A} e.

#[global] Instance outcome_ret : MRet outcome := @Ok.
#[global] Instance outcome_bind : MBind outcome := λ A B k c,
  match c with
  | Ok a => k a
  | Raise e => Raise e
  end.

(** [try: c except Exception as e: h e] *)
Definition try_except {A : Type} (c : outcome A) (h : exn → outcome A) : outcome A :=
  match c with
  | Ok a => Ok a
  | Raise e => h e
  end.

(** ** JSON values

    What [request.json()] and [json.loads] produce, and what handlers
    return.  Numbers are the integers. *)
Inductive json : Type :=
  | JNull
  | JBool (b : bool)
  | JNum (n : Z)
  | JStr (s : string)
  | JArr (items : list json)
  | JObj (fields : list (string * json)).

(** Python truthiness, as used by [if not method]. *)
Definition truthy (v : json) : bool :=
  match v with
  | JNull => false
  | JBool b => b
  | JNum n => negb (n =? 0)
  | JStr s => negb (String.eqb s "")
  | JArr l => match l with [] => false | _ => true end
  | JObj l => match l with [] => false | _ => true end
  end.

(** Lookup of a key in the fields of an object; the last binding of a
    duplicated key wins, as in [json.loads]. *)
Fixpoint assoc_last (k : string) (l : list (string * json)) : option json :=
  match l with
  | [] => None
  | (k', v) :: rest =>
      match assoc_last k rest with
      | Some w => Some w
      | None => if String.eqb k k' then Some v else None
      end
  end.

(** [type(v).__name__] *)
Definition type_name (v : json) : string :=
  match v with
  | JNull => "NoneType"
  | JBool _ => "bool"
  | JNum _ => "int"
  | JStr _ => "str"
  | JArr _ => "list"
  | JObj _ => "dict"
  end.

(** [d.get(k, default)]: only a dict has [get]. *)
Definition py_get (d : json) (k : string) (dflt : json) : outcome json :=
  match d with
  | JObj l => Ok (default dflt (assoc_last k l))
  | _ => Raise (mk_exn AttributeError
                  ("'" +:+ type_name d +:+ "' object has no attribute 'get'"))
  end.

(** ** transport/result_queue.py *)

Module ResultQueue.

(** A [threading.Event] is a heap object shared between the queue and
    the waiting caller: it is named by an address, and the queue's
    state records which events are set. *)
Abbreviation Event := nat.

(** [JobEntry]; [status] is one of "pending", "success", "error" and
    "cancelled", and [result] is [JNull] for Python's [None]. *)
Record JobEntry : Type := mk_JobEntry {
  status : string;
  result : json;
  error : option string;
  event : Event;
  created_at : Z;
}.

(** [ResultQueue]: the dict [_queue], the flags of the events handed
    out so far, and the next fresh event address. *)
Record t : Type := mk_t {
  _queue : gmap string JobEntry;
  events_set : gset Event;
  next_event : Event;
}.

(** [ResultQueue()] *)
Definition new : t :=
  {| _queue := ∅; events_set := ∅; next_event := 0%nat |}.

(** [register(job_id)], run at time [now]. *)
Definition register (job_id : string) (now : Z) (q : t) : Event * t :=
  let entry := {| status := "pending"; result := JNull; error := None;
                  event := next_event q; created_at := now |} in
  (event entry,
   {| _queue := <[job_id := entry]> (_queue q);
      events_set := events_set q;
      next_event := S (next_event q) |}).

Definition exists_ (job_id : string) (q : t) : bool :=
  bool_decide (is_Some (_queue q !! job_id)).

Definition get_status (job_id : string) (q : t) : option string :=
  match _queue q !! job_id with
  | Some entry => Some (status entry)
  | None => None
  end.

Definition is_cancelled (job_id : string) (q : t) : bool :=
  match _queue q !! job_id with
  | None => true
  | Some entry => bool_decide (status entry = "cancelled")
  end.

Definition set_success (job_id : string) (r : json) (q : t) : bool * t :=
  match _queue q !! job_id with
  | None => (false, q)
  | Some entry =>
      let entry' := {| status := "success"; result := r;
                       error := error entry; event := event entry;
                       created_at := created_at entry |} in
      (true,
       {| _queue := <[job_id := entry']> (_queue q);
          events_set := {[event entry]} ∪ events_set q;
          next_event := next_event q |})
  end.

Definition set_error (job_id : string) (err : string) (q : t) : bool * t :=
  match _queue q !! job_id with
  | None => (false, q)
  | Some entry =>
      let entry' := {| status := "error"; result := result entry;
                       error := Some err; event := event entry;
                       created_at := created_at entry |} in
      (true,
       {| _queue := <[job_id := entry']> (_queue q);
          events_set := {[event entry]} ∪ events_set q;
          next_event := next_event q |})
  end.

Definition mark_cancelled (job_id : string) (q : t) : bool * t :=
  match _queue q !! job_id with
  | None => (false, q)
  | Some entry =>
      let entry' := {| status := "cancelled"; result := result entry;
                       error := error entry; event := event entry;
                       created_at := created_at entry |} in
      (true,
       {| _queue := <[job_id := entry']> (_queue q);
          events_set := events_set q;
          next_event := next_event q |})
  end.

Definition get_result (job_id : string) (q : t)
  : outcome (string * json * option string) :=
  match _queue q !! job_id with
  | None => Raise (mk_exn KeyError ("Job " +:+ job_id +:+ " not found in queue"))
  | Some entry => Ok (status entry, result entry, error entry)
  end.

Definition cleanup (job_id : string) (q : t) : bool * t :=
  match _queue q !! job_id with
  | Some _ =>
      (true,
       {| _queue := delete job_id (_queue q);
          events_set := events_set q;
          next_event := next_event q |})
  | None => (false, q)
  end.

Definition clear_all (q : t) : nat * t :=
  (size (_queue q),
   {| _queue := ∅; events_set := events_set q; next_event := next_event q |}).

Definition len (q : t) : nat := size (_queue q).

(** The three calls that finalize a job, as data, so that races
    between them can be replayed in any order. *)
Inductive write : Type :=
  | WSuccess (r : json)
  | WError (err : string)
  | WCancelled.

Definition apply_write (job_id : string) (w : write) (q : t) : bool * t :=
  match w with
  | WSuccess r => set_success job_id r q
  | WError err => set_error job_id err q
  | WCancelled => mark_cancelled job_id q
  end.

Definition apply_writes (job_id : string) (ws : list write) (q : t) : t :=
  foldl (λ q w, (apply_write job_id w q).2) q ws.

Definition written_status (w : write) : string :=
  match w with
  | WSuccess _ => "success"
  | WError _ => "error"
  | WCancelled => "cancelled"
  end.

End ResultQueue.

(** ** resources/_internal/executor.py: the pending-operations registry *)

Module Executor.

(** utils/config.py *)
Definition MAX_PENDING_OPERATIONS : nat := 50.

(** [asyncio.Event] and event-loop objects are created by the caller
    and only passed in: they are named by addresses. *)
Abbreviation Event := nat.
Abbreviation Loop := nat.
Abbreviation Addr := nat.

(** The dict stored for each pending operation. *)
Record PendingInfo : Type := mk_PendingInfo {
  start_time : Z;
  cancelled : bool;
  event : Event;
  loop : Loop;
}.

#[global] Instance PendingInfo_inhabited : Inhabited PendingInfo :=
  populate {| start_time := 0; cancelled := false;
              event := 0%nat; loop := 0%nat |}.

(** An [OrderedDict] with string keys: bindings in insertion order. *)
Abbreviation OrderedDict V := (list (string * V)).

(** [d.get(k)] *)
Fixpoint od_get {V} (k : string) (d : OrderedDict V) : option V :=
  match d with
  | [] => None
  | (k', v) :: rest => if decide (k = k') then Some v else od_get k rest
  end.

(** [d[k] = v]: an existing key keeps its position, a new key goes last. *)
Fixpoint od_set {V} (k : string) (v : V) (d : OrderedDict V) : OrderedDict V :=
  match d with
  | [] => [(k, v)]
  | (k', v') :: rest =>
      if decide (k = k') then (k', v) :: rest else (k', v') :: od_set k v rest
  end.

(** [del d[k]] for a key that is present *)
Fixpoint od_del {V} (k : string) (d : OrderedDict V) : OrderedDict V :=
  match d with
  | [] => []
  | (k', v') :: rest =>
      if decide (k = k') then rest else (k', v') :: od_del k rest
  end.


(** The module's state and the part of its environment it acts on.
    The info dicts live in [heap] and are referred to by address from
    [_pending_operations], so that a dict marked cancelled and then
    removed from the registry can still be inspected.  [posted] lists
    the [event.set] callbacks accepted by
    [loop.call_soon_threadsafe], oldest first; [closed_loops] are the
    loops on which that call raises [RuntimeError];
    [cleanup_timers] lists the job ids whose property cleanup has
    been registered with [bpy.app.timers], which accepts timers only
    while [timers_available]. *)
Record World : Type := mk_World {
  heap : gmap Addr PendingInfo;
  next_addr : Addr;
  _pending_operations : OrderedDict Addr;
  posted : list (Loop * Event);
  closed_loops : gset Loop;
  cleanup_timers : list string;
  timers_available : bool;
}.

(** The state at import time, in a given environment. *)
Definition initial (closed : gset Loop) (timers : bool) : World :=
  {| heap := ∅; next_addr := 0%nat; _pending_operations := [];
     posted := []; closed_loops := closed;
     cleanup_timers := []; timers_available := timers |}.

Definition set_heap (h : gmap Addr PendingInfo) (w : World) : World :=
  {| heap := h; next_addr := next_addr w;
     _pending_operations := _pending_operations w;
     posted := posted w; closed_loops := closed_loops w;
     cleanup_timers := cleanup_timers w;
     timers_available := timers_available w |}.

Definition set_pending (d : OrderedDict Addr) (w : World) : World :=
  {| heap := heap w; next_addr := next_addr w;
     _pending_operations := d;
     posted := posted w; closed_loops := closed_loops w;
     cleanup_timers := cleanup_timers w;
     timers_available := timers_available w |}.

(** [loop.call_soon_threadsafe(event.set)] *)
Definition call_soon_threadsafe (lp : Loop) (ev : Event) (w : World)
  : outcome World :=
  if decide (lp ∈ closed_loops w)
  then Raise (mk_exn RuntimeError "Event loop is closed")
  else Ok {| heap := heap w; next_addr := next_addr w;
             _pending_operations := _pending_operations w;
             posted := posted w ++ [(lp, ev)];
             closed_loops := closed_loops w;
             cleanup_timers := cleanup_timers w;
             timers_available := timers_available w |}.

(** The [try: loop.call_soon_threadsafe(event.set) except RuntimeError:
    pass] block shared by [_register_pending] and [_signal_completion]. *)
Definition signal_event (lp : Loop) (ev : Event) (w : World) : outcome World :=
  try_except (call_soon_threadsafe lp ev w)
    (λ e, if is_RuntimeError e then Ok w else Raise e).

(** [_schedule_property_cleanup_for_job]: a failure to register the
    timer is logged and swallowed. *)
Definition _schedule_property_cleanup_for_job (job_id : string) (w : World)
  : World :=
  if timers_available w
  then {| heap := heap w; next_addr := next_addr w;
          _pending_operations := _pending_operations w;
          posted := posted w; closed_loops := closed_loops w;
          cleanup_timers := cleanup_timers w ++ [job_id];
          timers_available := timers_available w |}
  else w.

Definition mark (info : PendingInfo) : PendingInfo :=
  {| start_time := start_time info; cancelled := true;
     event := event info; loop := loop info |}.

(** [_register_pending(job_id, event, loop)], run at time [now].
    [next(iter(...))] raises [StopIteration] on an empty dict. *)
Definition _register_pending (job_id : string) (ev : Event) (lp : Loop)
    (now : Z) (w : World) : outcome World :=
  w1 ← (if decide (MAX_PENDING_OPERATIONS ≤ length (_pending_operations w))%nat
        then
          match _pending_operations w with
          | [] => Raise (mk_exn StopIteration "")
          | (oldest_id, oldest_info) :: _ =>
              let w := set_heap (alter mark oldest_info (heap w)) w in
              let oldest_event := event (heap w !!! oldest_info) in
              let oldest_loop := loop (heap w !!! oldest_info) in
              w ← signal_event oldest_loop oldest_event w;
              let w := set_pending (od_del oldest_id (_pending_operations w)) w in
              Ok (_schedule_property_cleanup_for_job oldest_id w)
          end
        else Ok w);
  let info := {| start_time := now; cancelled := false;
                 event := ev; loop := lp |} in
  Ok {| heap := <[next_addr w1 := info]> (heap w1);
        next_addr := S (next_addr w1);
        _pending_operations :=
          od_set job_id (next_addr w1) (_pending_operations w1);
        posted := posted w1; closed_loops := closed_loops w1;
        cleanup_timers := cleanup_timers w1;
        timers_available := timers_available w1 |}.

Definition _signal_completion (job_id : string) (w : World) : outcome World :=
  match od_get job_id (_pending_operations w) with
  | Some info =>
      signal_event (loop (heap w !!! info)) (event (heap w !!! info)) w
  | None => Ok w
  end.

Definition _unregister_pending (job_id : string) (w : World) : World :=
  match od_get job_id (_pending_operations w) with
  | Some _ => set_pending (od_del job_id (_pending_operations w)) w
  | None => w
  end.


Definition clear_pending_operations (w : World) : nat * World :=
  (length (_pending_operations w), set_pending [] w).

(** Calls into the registry, as data, to replay arbitrary sequences. *)
Inductive call : Type :=
  | Register (job_id : string) (ev : Event) (lp : Loop) (now : Z)
  | Unregister (job_id : string)
  | Signal (job_id : string)
  | Clear.

Definition step (c : call) (w : World) : outcome World :=
  match c with
  | Register job_id ev lp now => _register_pending job_id ev lp now w
  | Unregister job_id => Ok (_unregister_pending job_id w)
  | Signal job_id => _signal_completion job_id w
  | Clear => Ok (clear_pending_operations w).2
  end.

Fixpoint run (cs : list call) (w : World) : outcome World :=
  match cs with
  | [] => Ok w
  | c :: cs' => w' ← step c w; run cs' w'
  end.

(** A workload of [n] registrations of distinct jobs "job-0", "job-1",
    ..., each with its own event, all waiting on loop [0]. *)
Definition jobs (n : nat) : list call :=
  (λ i, Register ("job-" +:+ pretty i) i 0%nat (Z.of_nat i)) <$> seq 0 n.


End Executor.


(** ** transport/asgi.py: the per-session SSE queue *)

Module SSE.

(** [collections.deque] with a [maxlen]. *)
Record deque (A : Type) : Type := mk_deque { items : list A; maxlen : nat }.
Arguments mk_deque {A} items maxlen.
Arguments items {A} d.
Arguments maxlen {A} d.

(** [deque(maxlen=n)] *)
Definition deque_new {A} (n : nat) : deque A := {| items := []; maxlen := n |}.

(** [d.append(x)]: when the bound is exceeded the leftmost item goes. *)
Definition deque_append {A} (x : A) (d : deque A) : deque A :=
  let l := items d ++ [x] in
  {| items := if decide (maxlen d < length l)%nat then drop 1 l else l;
     maxlen := maxlen d |}.

(** [SSEQueue]; [_event] is the flag of its [asyncio.Event]. *)
Record SSEQueue : Type := mk_SSEQueue {
  messages : deque json;
  dropped_count : nat;
  last_drop_notified : bool;
  created_at : Z;
  last_activity : Z;
  _event : bool;
}.

(** [SSEQueue(messages=deque(maxlen=n))], built at time [now]. *)
Definition new (n : nat) (now : Z) : SSEQueue :=
  {| messages := deque_new n; dropped_count := 0%nat;
     last_drop_notified := true; created_at := now;
     last_activity := now; _event := false |}.

(** [append(message)], run at time [now]. *)
Definition append (message : json) (now : Z) (q : SSEQueue) : bool * SSEQueue :=
  if decide (maxlen (messages q) ≤ length (items (messages q)))%nat
  then (false,
        {| messages := deque_append message (messages q);
           dropped_count := dropped_count q + 1;
           last_drop_notified := false;
           created_at := created_at q;
           last_activity := now;
           _event := true |})
  else (true,
        {| messages := deque_append message (messages q);
           dropped_count := dropped_count q;
           last_drop_notified := last_drop_notified q;
           created_at := created_at q;
           last_activity := now;
           _event := true |}).

Definition popleft (q : SSEQueue) : option json * SSEQueue :=
  match items (messages q) with
  | m :: rest =>
      (Some m,
       {| messages := {| items := rest; maxlen := maxlen (messages q) |};
          dropped_count := dropped_count q;
          last_drop_notified := last_drop_notified q;
          created_at := created_at q;
          last_activity := last_activity q;
          _event := _event q |})
  | [] => (None, q)
  end.

(** [wait_for_message], for a consumer that is alone with the queue:
    a set event is consumed at once, an unset one lets the wait time
    out. *)
Definition wait_for_message (q : SSEQueue) : bool * SSEQueue :=
  if _event q
  then (true,
        {| messages := messages q;
           dropped_count := dropped_count q;
           last_drop_notified := last_drop_notified q;
           created_at := created_at q;
           last_activity := last_activity q;
           _event := false |})
  else (false, q).

(** The dict built by [get_drop_notification] for [count] drops.  The
    source stores the JSON text of the inner object under "data"; the
    object itself is kept here. *)
Definition drop_notification (count : nat) : json :=
  JObj [("event", JStr "warning");
        ("data",
         JObj [("type", JStr "messages_dropped");
               ("count", JNum (Z.of_nat count));
               ("message",
                JStr (pretty count +:+
                      " message(s) were dropped due to slow consumption. " +:+
                      "Consider processing messages faster or increasing SSE_QUEUE_SIZE."))])].

Definition get_drop_notification (q : SSEQueue) : option json * SSEQueue :=
  if negb (last_drop_notified q) && bool_decide (0 < dropped_count q)%nat
  then (Some (drop_notification (dropped_count q)),
        {| messages := messages q;
           dropped_count := 0%nat;
           last_drop_notified := true;
           created_at := created_at q;
           last_activity := last_activity q;
           _event := _event q |})
  else (None, q).

Definition len (q : SSEQueue) : nat := length (items (messages q)).


(** What producer and consumer do to a queue, as data. *)
Inductive op : Type :=
  | Append (now : Z) (message : json)
  | Popleft
  | Wait
  | Poll.

Definition exec (o : op) (q : SSEQueue) : SSEQueue :=
  match o with
  | Append now message => (append message now q).2
  | Popleft => (popleft q).2
  | Wait => (wait_for_message q).2
  | Poll => (get_drop_notification q).2
  end.


Fixpoint run (os : list op) (q : SSEQueue) : SSEQueue :=
  match os with
  | [] => q
  | o :: os' => run os' (exec o q)
  end.



End SSE.


(** ** Strings as Python formats them *)

(** The newline character. *)
Definition nl : string := String (ascii_of_nat 10) "".

(** The characters removed by [str.strip()]. *)
Definition is_space (c : ascii) : bool :=
  let n := nat_of_ascii c in
  ((9 <=? n) && (n <=? 13) || (28 <=? n) && (n <=? 32))%nat.

(** [not s.strip()]: nothing but white space *)
Fixpoint all_space (s : string) : bool :=
  match s with
  | EmptyString => true
  | String c s' => is_space c && all_space s'
  end.

(** Commas between groups of three digits, on a reversed digit string. *)
Fixpoint group3 (rev_digits : list ascii) : list ascii :=
  match rev_digits with
  | a :: b :: c :: ((_ :: _) as rest) =>
      a :: b :: c :: ","%char :: group3 rest
  | short => short
  end.

(** The format [{n:,}] of an integer. *)
Definition thousands (n : Z) : string :=
  let digits := String.list_ascii_of_string (pretty (Z.abs n)) in
  let grouped := String.string_of_list_ascii (rev (group3 (rev digits))) in
  if n <? 0 then "-" +:+ grouped else grouped.

(** [s[:n]] *)
Definition str_prefix (n : Z) (s : string) : string :=
  String.substring 0 (Z.to_nat n) s.

(** [len(s)] *)
Definition str_len (s : string) : Z := Z.of_nat (String.length s).

(** [v == s] for a string literal [s] *)
Definition is_str_eq (v : json) (s : string) : bool :=
  match v with
  | JStr t => String.eqb t s
  | _ => false
  end.

(** [str(v)] for scalars; the rendering of containers is not
    modelled and a placeholder stands for it. *)
Definition scalar_str (v : json) : string :=
  match v with
  | JNull => "None"
  | JBool true => "True"
  | JBool false => "False"
  | JNum n => pretty n
  | JStr s => s
  | JArr _ => "[...]"
  | JObj _ => "{...}"
  end.

(** ** mcp/handlers.py *)

Module Handlers.

(** utils/config.py *)
Definition OUTPUT_SIZE_LIMIT : Z := 2 * 1024 * 1024.

(** The [MCPServer] instance as the handlers see it: its name and the
    outcome of each of its methods.  Tools may return any value;
    [tool_str] is Python's [str] on those values. *)
Record MCPServer : Type := mk_MCPServer {
  name : string;
  tool_value : Type;
  tool_str : tool_value → string;
  list_tools : list json;
  call_tool : string → json → outcome tool_value;
  list_resources : list json;
  read_resource : string → outcome string;
  list_prompts : list json;
  get_prompt : string → json → outcome json;
}.

Definition handle_initialize (mcp_server : MCPServer) (params : json)
  : outcome json :=
  client_protocol ← py_get params "protocolVersion" (JStr "unknown");
  let supported_versions := ["2024-11-05"; "2025-06-18"] in
  let supported := existsb (is_str_eq client_protocol) supported_versions in
  let protocol_version :=
    if supported then client_protocol else JStr "2024-11-05" in
  Ok (JObj [("protocolVersion", protocol_version);
            ("serverInfo",
             JObj [("name", JStr (name mcp_server)); ("version", JStr "1.0.0")]);
            ("capabilities",
             JObj [("tools", JObj [("listChanged", JBool false)]);
                   ("resources", JObj [("subscribe", JBool false);
                                       ("listChanged", JBool false)]);
                   ("prompts", JObj [("listChanged", JBool false)])])]).

Definition handle_tools_list (mcp_server : MCPServer) (params : json)
  : outcome json :=
  Ok (JObj [("tools", JArr (list_tools mcp_server))]).

(** The check shared by [handle_tools_call], [handle_resources_read]
    and [handle_prompts_get]:
    [not v or not isinstance(v, str) or not v.strip()]. *)
Definition missing_or_blank (v : json) : bool :=
  negb (truthy v)
  || match v with
     | JStr s => all_space s
     | _ => true
     end.

(** The notice appended to an output cut at [limit] characters. *)
Definition truncation_notice (limit original_size : Z) : string :=
  nl +:+ nl +:+ "[OUTPUT TRUNCATED]" +:+ nl +:+
  "Original size: " +:+ thousands original_size +:+ " bytes" +:+ nl +:+
  "Limit: " +:+ thousands limit +:+ " bytes" +:+ nl +:+
  "Truncated: " +:+ thousands (original_size - limit) +:+ " bytes".

(** The size check of [handle_tools_call], for a given limit. *)
Definition limit_output (limit : Z) (result_str : string) : string :=
  if decide (limit < str_len result_str)
  then
    let original_size := str_len result_str in
    str_prefix limit result_str +:+ truncation_notice limit original_size
  else result_str.

Definition text_content (text : string) : json :=
  JArr [JObj [("type", JStr "text"); ("text", JStr text)]].

Definition handle_tools_call (mcp_server : MCPServer) (params : json)
  : outcome json :=
  tool_name ← py_get params "name" JNull;
  arguments ← py_get params "arguments" (JObj []);
  match tool_name with
  | JStr name =>
      if missing_or_blank tool_name
      then Raise (mk_exn ValueError
                    ("Tool name is required and cannot be empty (received: "
                     +:+ type_name tool_name +:+ ")"))
      else
        try_except
          (result ← call_tool mcp_server name arguments;
           let result_str := tool_str mcp_server result in
           let result_str := limit_output OUTPUT_SIZE_LIMIT result_str in
           Ok (JObj [("content", text_content result_str)]))
          (λ e,
           let error_msg := "Tool execution failed: " +:+ exn_name e
                            +:+ ": " +:+ exn_str e in
           Ok (JObj [("content", text_content error_msg);
                     ("isError", JBool true)]))
  | _ =>
      Raise (mk_exn ValueError
               ("Tool name is required and cannot be empty (received: "
                +:+ type_name tool_name +:+ ")"))
  end.

Definition handle_resources_list (mcp_server : MCPServer) (params : json)
  : outcome json :=
  Ok (JObj [("resources", JArr (list_resources mcp_server));
            ("resourceTemplates", JArr [])]).

Definition handle_resources_read (mcp_server : MCPServer) (params : json)
  : outcome json :=
  uri ← py_get params "uri" JNull;
  match uri with
  | JStr u =>
      if missing_or_blank uri
      then Raise (mk_exn ValueError
                    ("Resource URI is required and cannot be empty (received: "
                     +:+ type_name uri +:+ ")"))
      else
        try_except
          (content ← read_resource mcp_server u;
           Ok (JObj [("contents",
                      JArr [JObj [("uri", uri);
                                  ("mimeType", JStr "text/markdown");
                                  ("text", JStr content)]])]))
          (λ e, Raise (mk_exn RuntimeError
                         ("Resource read failed: " +:+ exn_name e
                          +:+ ": " +:+ exn_str e)))
  | _ =>
      Raise (mk_exn ValueError
               ("Resource URI is required and cannot be empty (received: "
                +:+ type_name uri +:+ ")"))
  end.

Definition handle_prompts_list (mcp_server : MCPServer) (params : json)
  : outcome json :=
  Ok (JObj [("prompts", JArr (list_prompts mcp_server))]).

Definition handle_prompts_get (mcp_server : MCPServer) (params : json)
  : outcome json :=
  prompt_name ← py_get params "name" JNull;
  arguments ← py_get params "arguments" (JObj []);
  match prompt_name with
  | JStr n =>
      if missing_or_blank prompt_name
      then Raise (mk_exn ValueError
                    ("Prompt name is required and cannot be empty (received: "
                     +:+ type_name prompt_name +:+ ")"))
      else
        try_except
          (get_prompt mcp_server n arguments)
          (λ e, Raise (mk_exn RuntimeError
                         ("Prompt get failed: " +:+ exn_name e
                          +:+ ": " +:+ exn_str e)))
  | _ =>
      Raise (mk_exn ValueError
               ("Prompt name is required and cannot be empty (received: "
                +:+ type_name prompt_name +:+ ")"))
  end.

Definition handle_notifications_initialized (mcp_server : MCPServer)
    (params : json) : outcome json :=
  Ok JNull.

Definition handle_notifications_cancelled (mcp_server : MCPServer)
    (params : json) : outcome json :=
  request_id ← (if truthy params then py_get params "requestId" JNull
                else Ok JNull);
  Ok JNull.

(** A handler as [dispatch_request] calls it: with [params], or with
    the argument left out. *)
Definition handler : Type := MCPServer → option json → outcome json.

(** A handler declared as [(mcp_server, params: dict)]: leaving
    [params] out is a [TypeError]. *)
Definition required (fname : string) (h : MCPServer → json → outcome json)
  : handler :=
  λ mcp_server params,
    match params with
    | Some p => h mcp_server p
    | None =>
        Raise (mk_exn TypeError
                 (fname +:+ "() missing 1 required positional argument: 'params'"))
    end.

(** A handler declared as [(mcp_server, params: Optional[dict] = None)]. *)
Definition optional (h : MCPServer → json → outcome json) : handler :=
  λ mcp_server params, h mcp_server (default JNull params).

Definition METHOD_HANDLERS : list (string * handler) :=
  [("initialize", required "handle_initialize" handle_initialize);
   ("tools/list", optional handle_tools_list);
   ("tools/call", required "handle_tools_call" handle_tools_call);
   ("resources/list", optional handle_resources_list);
   ("resources/read", required "handle_resources_read" handle_resources_read);
   ("prompts/list", optional handle_prompts_list);
   ("prompts/get", required "handle_prompts_get" handle_prompts_get);
   ("notifications/initialized", optional handle_notifications_initialized);
   ("notifications/cancelled", optional handle_notifications_cancelled)].

(** [METHOD_HANDLERS.get(name)] *)
Fixpoint lookup_handler (name : string) (table : list (string * handler))
  : option handler :=
  match table with
  | [] => None
  | (n, h) :: rest => if String.eqb name n then Some h else lookup_handler name rest
  end.

(** [dispatch_request(mcp_server, method, params)].  [method] is
    whatever the message carried; testing an unhashable value for
    membership in a dict is a [TypeError], and a value that is not a
    string is never a key. *)
Definition dispatch_request (mcp_server : MCPServer) (method params : json)
  : outcome json :=
  found ← match method with
          | JStr m => Ok (lookup_handler m METHOD_HANDLERS)
          | JArr _ => Raise (mk_exn TypeError "unhashable type: 'list'")
          | JObj _ => Raise (mk_exn TypeError "unhashable type: 'dict'")
          | _ => Ok None
          end;
  match found with
  | None =>
      Raise (mk_exn ValueError
               ("Method '" +:+ scalar_str method +:+ "' not supported"))
  | Some h =>
      match params with
      | JNull => h mcp_server None
      | _ => h mcp_server (Some params)
      end
  end.

End Handlers.

(** ** transport/asgi.py: the JSON-RPC endpoint /http *)

Module Asgi.
Import Handlers.

Inductive Response : Type :=
  | JSONResponse (content : json) (status_code : Z)
  | EmptyResponse (status_code : Z).

Definition error_envelope (version msg_id : json) (code : Z) (message : string)
  : json :=
  JObj [("jsonrpc", version); ("id", msg_id);
        ("error", JObj [("code", JNum code); ("message", JStr message)])].

(** [rpc_endpoint(request)]; [body] is the outcome of
    [await request.json()]. *)
Definition rpc_endpoint (mcp_server : MCPServer) (body : outcome json)
  : outcome Response :=
  match body with
  | Raise e =>
      Ok (JSONResponse
            (error_envelope (JStr "2.0") JNull (-32700)
               ("Parse error: " +:+ exn_str e))
            400)
  | Ok data =>
      method ← py_get data "method" JNull;
      params ← py_get data "params" JNull;
      msg_id ← py_get data "id" JNull;
      jsonrpc_version ← py_get data "jsonrpc" (JStr "2.0");
      if negb (truthy method)
      then Ok (JSONResponse
                 (error_envelope jsonrpc_version msg_id (-32600)
                    "Invalid Request: method is required")
                 200)
      else
        let is_notification :=
          match msg_id with JNull => true | _ => false end in
        match dispatch_request mcp_server method params with
        | Ok result =>
            if is_notification then Ok (EmptyResponse 204)
            else Ok (JSONResponse
                       (JObj [("jsonrpc", jsonrpc_version); ("id", msg_id);
                              ("result", result)])
                       200)
        | Raise e =>
            if is_ValueError e
            then
              if is_notification then Ok (EmptyResponse 204)
              else Ok (JSONResponse
                         (error_envelope jsonrpc_version msg_id (-32602)
                            ("Invalid params: " +:+ exn_str e))
                         200)
            else
              if is_notification then Ok (EmptyResponse 204)
              else Ok (JSONResponse
                         (error_envelope jsonrpc_version msg_id (-32603)
                            ("Internal error: " +:+ exn_str e))
                         200)
        end
  end.

End Asgi.


(** ** transport/http_server.py: the server manager *)

Module HttpServer.

(** utils/config.py, in milliseconds *)
Definition GRACEFUL_SHUTDOWN_TIMEOUT : Z := 1500.

(** A custom property of the window manager: a string, or any other
    value. *)
Inductive wm_value : Type :=
  | WStr (s : string)
  | WOther (v : json).

(** [ServerManager].  The loop, thread, task and uvicorn server are
    external objects, named by addresses; [_shutdown_complete] is the
    flag of its [threading.Event]; [_mcp_instance] tells whether an
    initialized [MCPServer] is held. *)
Record ServerManager : Type := mk_ServerManager {
  _mcp_instance : option nat;
  _result_queue : ResultQueue.t;
  _server_loop : option nat;
  _server_thread : option nat;
  _server_task : option nat;
  _uvicorn_server : option nat;
  _shutting_down : bool;
  _shutdown_complete : bool;
}.

(** What the manager does to the objects around it. *)
Inductive effect : Type :=
  | SetShouldExit (server : nat)
  | CancelAllTasks (loop : nat)
  | JoinThread (thread : nat) (timeout_ms : Z)
  | PostLoopStop (loop : nat)
  | ClearMcp (mcp : nat)
  | RegisterClearFlag.

(** The process as the manager's code sees it: the manager itself, the
    executor module's registry, the window manager's custom properties,
    the calls made to the operator [bpy.ops.bmcp.run_code], and the
    effects on external objects, oldest first. *)
Record World : Type := mk_World {
  self : ServerManager;
  executor : Executor.World;
  wm : gmap string wm_value;
  run_code_calls : list (json * string);
  effects : list effect;
}.

(** What Blender and the Python runtime contribute to the main-thread
    callback: the operator, which given its [code] and [job_id]
    arguments updates the window manager and may raise, and
    [json.loads]. *)
Record Host : Type := mk_Host {
  run_code : json → string → gmap string wm_value
             → option exn * gmap string wm_value;
  json_loads : string → outcome json;
}.

Definition set_result_queue (q : ResultQueue.t) (w : World) : World :=
  {| self := {| _mcp_instance := _mcp_instance (self w);
                _result_queue := q;
                _server_loop := _server_loop (self w);
                _server_thread := _server_thread (self w);
                _server_task := _server_task (self w);
                _uvicorn_server := _uvicorn_server (self w);
                _shutting_down := _shutting_down (self w);
                _shutdown_complete := _shutdown_complete (self w) |};
     executor := executor w; wm := wm w;
     run_code_calls := run_code_calls w; effects := effects w |}.

Definition set_wm (m : gmap string wm_value) (w : World) : World :=
  {| self := self w; executor := executor w; wm := m;
     run_code_calls := run_code_calls w; effects := effects w |}.

(** The [try] block of [execute_in_main_thread], after the
    cancellation check: the state it reaches, and the exception it
    ends with, if any. *)
Definition run_job (host : Host) (tool_name : string) (arguments : json)
    (job_id : string) (w : World) : option exn * World :=
  if String.eqb tool_name "blender_run_code" then
    match py_get arguments "code" (JStr "") with
    | Raise e => (Some e, w)
    | Ok code =>
        let '(raised, wm1) := run_code host code job_id (wm w) in
        let w1 := {| self := self w; executor := executor w; wm := wm1;
                     run_code_calls := run_code_calls w ++ [(code, job_id)];
                     effects := effects w |} in
        match raised with
        | Some e => (Some e, w1)
        | None =>
            let result_key := "mcp_result_" +:+ job_id in
            let result_json := default (WStr "{}") (wm w1 !! result_key) in
            let parsed := match result_json with
                          | WStr s => json_loads host s
                          | WOther v => Ok v
                          end in
            match parsed with
            | Raise e => (Some e, w1)
            | Ok result =>
                let w2 := set_wm (delete result_key (wm w1)) w1 in
                match py_get result "status" JNull with
                | Raise e => (Some e, w2)
                | Ok status =>
                    if is_str_eq status "success"
                    then
                      (None,
                       set_result_queue
                         (ResultQueue.set_success job_id result
                            (_result_queue (self w2))).2 w2)
                    else
                      match py_get result "error" (JStr "Unknown error") with
                      | Raise e => (Some e, w2)
                      | Ok error_msg =>
                          (Some (mk_exn RuntimeError (scalar_str error_msg)), w2)
                      end
                end
            end
        end
    end
  else (Some (mk_exn ValueError ("Unknown tool: " +:+ tool_name)), w).

(** The callback [execute_in_main_thread] that
    [execute_on_main_thread] hands to [bpy.app.timers], for the job
    [job_id] of the call [(tool_name, arguments)]. *)
Definition execute_in_main_thread (host : Host) (tool_name : string)
    (arguments : json) (job_id : string) (w : World) : World :=
  if ResultQueue.is_cancelled job_id (_result_queue (self w))
  then w
  else
    match run_job host tool_name arguments job_id w with
    | (None, w') => w'
    | (Some e, w') =>
        set_result_queue
          (ResultQueue.set_error job_id (exn_str e)
             (_result_queue (self w'))).2 w'
    end.

(** The finishing part of the callback alone: what a callback that
    passed the cancellation check does from there on. *)
Definition finish_job (host : Host) (tool_name : string) (arguments : json)
    (job_id : string) (w : World) : World :=
  match run_job host tool_name arguments job_id w with
  | (None, w') => w'
  | (Some e, w') =>
      set_result_queue
        (ResultQueue.set_error job_id (exn_str e)
           (_result_queue (self w'))).2 w'
  end.

(** The message of the [TimeoutError] raised by
    [execute_on_main_thread]; TOOL_EXECUTION_TIMEOUT is 300.0. *)
Definition timeout_msg : string :=
  "Tool execution timed out after 300.0 seconds. " +:+
  "The scheduled operation was cancelled and will not execute. " +:+
  "If Blender appears frozen, it may be processing a previous request. " +:+
  "To increase the timeout, modify TOOL_EXECUTION_TIMEOUT in config.py " +:+
  "or set it to None for infinite wait.".

(** [ServerManager.execute_on_main_thread(tool_name, arguments)] for
    the job id [job_id] drawn by [uuid.uuid4()], entered at time [now].
    [timer_register] is the exception raised by
    [bpy.app.timers.register], if any.  The call then blocks in
    [event.wait]; [during] is everything the rest of the process does
    to the state in the meantime (the main thread running the callback,
    or not), and the wait succeeds when the job's event has been set by
    then. *)
Definition execute_on_main_thread (tool_name : string) (arguments : json)
    (job_id : string) (now : Z) (timer_register : option exn)
    (during : World → World) (w : World) : outcome json * World :=
  let '(event, q) := ResultQueue.register job_id now (_result_queue (self w)) in
  let w := set_result_queue q w in
  match timer_register with
  | Some e =>
      let w := set_result_queue
                 (ResultQueue.cleanup job_id (_result_queue (self w))).2 w in
      (Raise (mk_exn RuntimeError
                ("Failed to schedule execution on Blender's main thread: "
                 +:+ exn_str e +:+ ". "
                 +:+ "This can happen if Blender is in an invalid state (e.g., headless mode, "
                 +:+ "during shutdown, or from a background thread without timer access).")),
       w)
  | None =>
      let w := during w in
      let completed :=
        bool_decide (event ∈ ResultQueue.events_set (_result_queue (self w))) in
      let '(r, w) :=
        if completed then
          match ResultQueue.get_result job_id (_result_queue (self w)) with
          | Ok (status, result, error) =>
              if String.eqb status "success" then (Ok result, w)
              else (Raise (mk_exn RuntimeError (default "None" error)), w)
          | Raise _ =>
              (Raise (mk_exn RuntimeError
                        "Result entry was unexpectedly removed"), w)
          end
        else
          (Raise (mk_exn TimeoutError timeout_msg),
           set_result_queue
             (ResultQueue.mark_cancelled job_id (_result_queue (self w))).2 w)
      in
      (r, set_result_queue
            (ResultQueue.cleanup job_id (_result_queue (self w))).2 w)
  end.

(** What the runtime answers during one run of [graceful_shutdown]:
    the outcome of [server_loop.is_running()], of posting
    [cancel_all_tasks] to the loop and waiting for it, of
    [server_thread.is_alive()] before and after the first [join], of
    [server_loop.is_closed()], of posting [server_loop.stop], of
    [MCPServer.clear()] and of registering the [clear_flag] timer. *)
Record ShutdownEnv : Type := mk_ShutdownEnv {
  loop_is_running : outcome bool;
  cancel_all_tasks : option exn;
  alive_before_join : bool;
  alive_after_join : bool;
  loop_is_closed : bool;
  post_loop_stop : option exn;
  mcp_clear : option exn;
  register_timer : option exn;
}.

(** The references [stop] captures for the shutdown thread. *)
Record Captured : Type := mk_Captured {
  server_loop : option nat;
  uvicorn_server : option nat;
  server_thread : option nat;
}.

Definition add_effect (e : effect) (w : World) : World :=
  {| self := self w; executor := executor w; wm := wm w;
     run_code_calls := run_code_calls w; effects := effects w ++ [e] |}.

Definition set_self (sm : ServerManager) (w : World) : World :=
  {| self := sm; executor := executor w; wm := wm w;
     run_code_calls := run_code_calls w; effects := effects w |}.

(** Steps 1 to 4 of [graceful_shutdown]: the [try] block, with the
    exception it ends with, if any. *)
Definition shutdown_steps (env : ShutdownEnv) (cap : Captured) (w : World)
  : option exn * World :=
  (* Step 1: signal uvicorn to exit *)
  let w := match uvicorn_server cap with
           | Some u => add_effect (SetShouldExit u) w
           | None => w
           end in
  (* Step 2: cancel the tasks of the event loop *)
  let '(raised, w) :=
    match server_loop cap with
    | Some l =>
        match loop_is_running env with
        | Raise e => (if is_RuntimeError e then None else Some e, w)
        | Ok false => (None, w)
        | Ok true =>
            let w := add_effect (CancelAllTasks l) w in
            match cancel_all_tasks env with
            | None => (None, w)
            | Some e =>
                (if is_RuntimeError e || is_TimeoutError e then None else Some e,
                 w)
            end
        end
    | None => (None, w)
    end in
  match raised with
  | Some e => (Some e, w)
  | None =>
      (* Step 3: wait for the thread *)
      let w := match server_thread cap with
               | Some t =>
                   if alive_before_join env
                   then add_effect (JoinThread t GRACEFUL_SHUTDOWN_TIMEOUT) w
                   else w
               | None => w
               end in
      (* Step 4: force the loop to stop *)
      match server_thread cap with
      | Some t =>
          if alive_after_join env then
            let '(raised, w) :=
              match server_loop cap with
              | Some l =>
                  if loop_is_closed env then (None, w)
                  else
                    match post_loop_stop env with
                    | None => (None, add_effect (PostLoopStop l) w)
                    | Some e =>
                        (if is_RuntimeError e then None else Some e, w)
                    end
              | None => (None, w)
              end in
            match raised with
            | Some e => (Some e, w)
            | None => (None, add_effect (JoinThread t 500) w)
            end
          else (None, w)
      | None => (None, w)
      end
  end.

(** The [finally] block of [graceful_shutdown]. *)
Definition shutdown_finally (env : ShutdownEnv) (w : World) : World :=
  let w := {| self := self w;
              executor := (Executor.clear_pending_operations (executor w)).2;
              wm := wm w; run_code_calls := run_code_calls w;
              effects := effects w |} in
  let w := match _mcp_instance (self w) with
           | Some mcp =>
               match mcp_clear env with
               | None => add_effect (ClearMcp mcp) w
               | Some _ => w
               end
           | None => w
           end in
  let register_ok := match register_timer env with
                     | None => true
                     | Some _ => false
                     end in
  let w := set_self
             {| _mcp_instance := None;
                _result_queue := _result_queue (self w);
                _server_loop := _server_loop (self w);
                _server_thread := _server_thread (self w);
                _server_task := _server_task (self w);
                _uvicorn_server := _uvicorn_server (self w);
                _shutting_down :=
                  if register_ok then _shutting_down (self w) else false;
                _shutdown_complete := true |} w in
  if register_ok then add_effect RegisterClearFlag w else w.

(** [graceful_shutdown], the body of the shutdown thread: an exception
    of the [try] block is logged, and the [finally] block runs in every
    case. *)
Definition graceful_shutdown (env : ShutdownEnv) (cap : Captured) (w : World)
  : World :=
  shutdown_finally env (shutdown_steps env cap w).2.

(** [clear_flag], the timer registered by [graceful_shutdown] *)
Definition clear_flag (w : World) : World :=
  set_self
    {| _mcp_instance := _mcp_instance (self w);
       _result_queue := _result_queue (self w);
       _server_loop := _server_loop (self w);
       _server_thread := _server_thread (self w);
       _server_task := _server_task (self w);
       _uvicorn_server := _uvicorn_server (self w);
       _shutting_down := false;
       _shutdown_complete := _shutdown_complete (self w) |} w.

(** [ServerManager.stop()].  [thread_start] is the exception raised
    while creating and starting the shutdown thread, if any.  Besides
    the value returned and the new state, the model returns what the
    started thread has captured. *)
Definition stop (thread_start : option exn) (w : World)
  : bool * World * option Captured :=
  match _server_loop (self w) with
  | Some _ =>
      let cap := {| server_loop := _server_loop (self w);
                    uvicorn_server := _uvicorn_server (self w);
                    server_thread := _server_thread (self w) |} in
      match thread_start with
      | None =>
          (true,
           set_self {| _mcp_instance := _mcp_instance (self w);
                       _result_queue := _result_queue (self w);
                       _server_loop := None;
                       _server_thread := None;
                       _server_task := None;
                       _uvicorn_server := None;
                       _shutting_down := true;
                       _shutdown_complete := false |} w,
           Some cap)
      | Some e =>
          (false,
           set_self {| _mcp_instance := _mcp_instance (self w);
                       _result_queue := _result_queue (self w);
                       _server_loop := None;
                       _server_thread := None;
                       _server_task := None;
                       _uvicorn_server := None;
                       _shutting_down := false;
                       _shutdown_complete := true |} w,
           None)
      end
  | None => (false, w, None)
  end.

(** [is_running()], for a loop that [loop_running] tells to be
    running. *)
Definition is_running (loop_running : bool) (w : World) : bool :=
  match _server_loop (self w) with
  | Some _ => loop_running
  | None => false
  end.

Definition is_shutting_down (w : World) : bool := _shutting_down (self w).

(** A server with one tool, "blender_run_code", whose result is always
    [output]; it has no resources and no prompts. *)
Definition sample_server (output : string) : Handlers.MCPServer :=
  {| Handlers.name := "Blender bMCP";
     Handlers.tool_value := string;
     Handlers.tool_str := λ s, s;
     Handlers.list_tools := [JObj [("name", JStr "blender_run_code")]];
     Handlers.call_tool := λ tool_name arguments,
       if String.eqb tool_name "blender_run_code" then Ok output
       else Raise (mk_exn ValueError ("Tool '" +:+ tool_name +:+ "' not found"));
     Handlers.list_resources := [];
     Handlers.read_resource := λ uri,
       Raise (mk_exn ValueError ("Resource '" +:+ uri +:+ "' not found"));
     Handlers.list_prompts := [];
     Handlers.get_prompt := λ prompt arguments,
       Raise (mk_exn ValueError ("Prompt '" +:+ prompt +:+ "' not found")) |}.

(** [c * n] *)
Fixpoint str_repeat (c : ascii) (n : nat) : string :=
  match n with
  | O => ""
  | S n' => String c (str_repeat c n')
  end.

(** A tool result one character longer than the output limit. *)
Definition oversized_output : string :=
  str_repeat "x" (Z.to_nat (Handlers.OUTPUT_SIZE_LIMIT + 1)).

(** A host whose operator stores the JSON text [stored] under the
    job's result key and whose [json.loads] reads exactly that text as
    [parsed]. *)
Definition sample_host (stored : string) (parsed : json) : Host :=
  {| run_code := λ code job_id m,
       (None, <["mcp_result_" +:+ job_id := WStr stored]> m);
     json_loads := λ s,
       if String.eqb s stored then Ok parsed
       else Raise (mk_exn (other_exception "JSONDecodeError" true)
                     "Expecting value") |}.

(** A stopped manager with an empty result queue, and a running one. *)
Definition idle_manager : ServerManager :=
  {| _mcp_instance := None; _result_queue := ResultQueue.new;
     _server_loop := None; _server_thread := None; _server_task := None;
     _uvicorn_server := None; _shutting_down := false;
     _shutdown_complete := false |}.

Definition running_manager : ServerManager :=
  {| _mcp_instance := Some 0%nat; _result_queue := ResultQueue.new;
     _server_loop := Some 1%nat; _server_thread := Some 2%nat;
     _server_task := Some 3%nat; _uvicorn_server := Some 4%nat;
     _shutting_down := false; _shutdown_complete := true |}.

Definition world_of (sm : ServerManager) (ex : Executor.World) : World :=
  {| self := sm; executor := ex; wm := ∅; run_code_calls := [];
     effects := [] |}.

End HttpServer.


(** ** transport/asgi.py: the middlewares *)

Module Middleware.

(** [s.lstrip()], [s.rstrip()] and [s.strip()] *)
Fixpoint lstrip (s : string) : string :=
  match s with
  | EmptyString => EmptyString
  | String c s' => if is_space c then lstrip s' else s
  end.

Fixpoint rstrip (s : string) : string :=
  match s with
  | EmptyString => EmptyString
  | String c s' =>
      match rstrip s' with
      | EmptyString => if is_space c then EmptyString else String c EmptyString
      | r => String c r
      end
  end.

Definition strip (s : string) : string := rstrip (lstrip s).

(** [s[n:]] *)
Fixpoint str_drop (n : nat) (s : string) : string :=
  match n, s with
  | O, _ => s
  | S n', EmptyString => EmptyString
  | S n', String _ s' => str_drop n' s'
  end.

(** A response with its headers; [body] is [None] when there is none. *)
Record HttpResponse : Type := mk_HttpResponse {
  status_code : Z;
  body : option json;
  headers : list (string * string);
}.

(** What a middleware's [dispatch] does with a request: pass it on
    with [call_next], or answer it itself. *)
Inductive verdict : Type :=
  | CallNext
  | Reply (r : HttpResponse).

Definition rpc_error (code : Z) (message : string) : json :=
  JObj [("jsonrpc", JStr "2.0"); ("id", JNull);
        ("error", JObj [("code", JNum code); ("message", JStr message)])].

(** [ShutdownMiddleware.dispatch]; [is_shutting_down] is what
    [request.app.state.is_shutting_down()] returns. *)
Definition shutdown_dispatch (is_shutting_down : bool) : verdict :=
  if is_shutting_down
  then Reply {| status_code := 503;
                body := Some (rpc_error (-32000)
                  "Server is shutting down. Please retry after the server restarts.");
                headers := [("Retry-After", "5")] |}
  else CallNext.

(** The fields of [AuthMiddleware]. *)
Record AuthMiddleware : Type := mk_AuthMiddleware {
  auth_token : string;
  auth_required : bool;
  network_access : bool;
}.

(** What [AuthMiddleware.dispatch] reads of a request: the path, the
    Authorization header and the query parameter "token". *)
Record Request : Type := mk_Request {
  path : string;
  authorization : option string;
  query_token : option string;
}.

Definition unauthorized (message : string) : verdict :=
  Reply {| status_code := 401; body := Some (rpc_error (-32001) message);
           headers := [] |}.

(** [AuthMiddleware.dispatch]; [secrets.compare_digest] is equality. *)
Definition auth_dispatch (mw : AuthMiddleware) (request : Request) : verdict :=
  if String.eqb (path request) "/health" then CallNext
  else if negb (auth_required mw) then CallNext
  else if String.eqb (auth_token mw) "" then CallNext
  else
    let by_header :=
      match authorization request with
      | Some auth_header =>
          negb (String.eqb auth_header "")
          && String.prefix "Bearer " auth_header
          && (let token := strip (str_drop 7 auth_header) in
              negb (String.eqb token "") && String.eqb token (auth_token mw))
      | None => false
      end in
    if by_header then CallNext
    else
      match query_token request with
      | Some query_token =>
          if String.eqb query_token "" then
            unauthorized "Unauthorized: Invalid or missing token"
          else if network_access mw then
            unauthorized
              ("Query parameter authentication is disabled in network mode. "
               +:+ "Use Bearer token in Authorization header instead.")
          else if String.eqb query_token (auth_token mw) then CallNext
          else unauthorized "Unauthorized: Invalid or missing token"
      | None => unauthorized "Unauthorized: Invalid or missing token"
      end.

(** [request.app.state.stats] *)
Record Stats : Type := mk_Stats { request_count : Z; error_count : Z }.

(** [StatsMiddleware.dispatch]: [next] is the outcome of [call_next]. *)
Definition stats_dispatch (next : outcome HttpResponse) (stats : Stats)
  : outcome HttpResponse * Stats :=
  let stats := {| request_count := request_count stats + 1;
                  error_count := error_count stats |} in
  match next with
  | Ok response =>
      (Ok response,
       if decide (500 ≤ status_code response)
       then {| request_count := request_count stats;
               error_count := error_count stats + 1 |}
       else stats)
  | Raise e =>
      (Raise e,
       {| request_count := request_count stats;
          error_count := error_count stats + 1 |})
  end.

(** The statistics after a series of requests, given the outcome of
    each. *)
Definition stats_after (nexts : list (outcome HttpResponse)) (stats : Stats)
  : Stats :=
  foldl (λ st next, (stats_dispatch next st).2) stats nexts.

(** Is this outcome counted as an error? *)
Definition is_failure (next : outcome HttpResponse) : bool :=
  match next with
  | Ok response => bool_decide (500 ≤ status_code response)
  | Raise _ => true
  end.

End Middleware.

(** * Properties *)

(** ** Result queue *)

Section ResultQueueFacts.
Import ResultQueue.

Lemma apply_write_registered job_id w q entry :
  _queue q !! job_id = Some entry →
  ∃ entry', _queue (apply_write job_id w q).2 !! job_id = Some entry'
            ∧ status entry' = written_status w
            ∧ event entry' = event entry
            ∧ (∀ r, w = WSuccess r → result entry' = r)
            ∧ (∀ err, w = WError err → error entry' = Some err)
            ∧ (apply_write job_id w q).1 = true.
Proof.
  intros Hin. destruct w; simpl;
    [unfold set_success | unfold set_error | unfold mark_cancelled];
    rewrite Hin; simpl; rewrite lookup_insert_eq;
    eexists; split_and!; try done; by intros ? [= ->].
Qed.

Lemma apply_write_absent job_id w q :
  _queue q !! job_id = None → apply_write job_id w q = (false, q).
Proof.
  intros Hout. destruct w; simpl;
    [unfold set_success | unfold set_error | unfold mark_cancelled];
    by rewrite Hout.
Qed.

Lemma apply_writes_registered job_id ws q entry :
  _queue q !! job_id = Some entry →
  ∃ entry', _queue (apply_writes job_id ws q) !! job_id = Some entry'
            ∧ event entry' = event entry.
Proof.
  revert q entry. induction ws as [|w ws IH]; intros q entry Hin; simpl.
  - eauto.
  - destruct (apply_write_registered job_id w q entry Hin)
      as (e1 & He1 & _ & Hev & _).
    destruct (IH _ _ He1) as (e2 & He2 & Hev2).
    exists e2. split; [done | congruence].
Qed.

Lemma apply_writes_snoc job_id ws w q :
  apply_writes job_id (ws ++ [w]) q
  = (apply_write job_id w (apply_writes job_id ws q)).2.
Proof. unfold apply_writes. by rewrite foldl_app. Qed.

(** C1, as stated, fails: a [set_success] that arrives after
    [mark_cancelled] on a job that is still registered is not ignored.
    It returns [True], overwrites the status with "success" and stores
    its result. *)
Lemma late_success_overrides_cancelled :
  let q0 := (register "job-1" 0 new).2 in
  let q1 := (mark_cancelled "job-1" q0).2 in
  get_result "job-1" q1 = Ok ("cancelled", JNull, None)
  ∧ (set_success "job-1" (JStr "late") q1).1 = true
  ∧ get_result "job-1" (set_success "job-1" (JStr "late") q1).2
    = Ok ("success", JStr "late", None).
Proof. by vm_compute. Qed.

(** C1, amended: on a registered job every one of [set_success],
    [set_error] and [mark_cancelled] takes effect, so after any sequence
    of them the stored status is the one written by the LAST call (with
    the result of a last [set_success], the message of a last
    [set_error]), the entry keeping its event; the calls are no-ops
    returning [False] only for a job id that is not registered, as it is
    after [cleanup]. *)
Theorem terminal_write_last_writer_wins job_id q entry ws w :
  _queue q !! job_id = Some entry →
  (∃ entry',
     _queue (apply_writes job_id (ws ++ [w]) q) !! job_id = Some entry'
     ∧ status entry' = written_status w
     ∧ event entry' = event entry
     ∧ (∀ r, w = WSuccess r → result entry' = r)
     ∧ (∀ err, w = WError err → error entry' = Some err))
  ∧ (∀ w', apply_write job_id w' (cleanup job_id q).2
           = (false, (cleanup job_id q).2)).
Proof.
  intros Hin. split.
  - rewrite apply_writes_snoc.
    destruct (apply_writes_registered job_id ws q entry Hin) as (e1 & He1 & Hev1).
    destruct (apply_write_registered job_id w _ e1 He1)
      as (e2 & He2 & Hst & Hev2 & Hres & Herr & _).
    exists e2. split_and!; [done | done | congruence | done | done].
  - intros w'. apply apply_write_absent.
    unfold cleanup. rewrite Hin. simpl. apply lookup_delete_eq.
Qed.

Lemma terminal_write_last_writer_wins_witness :
  let q := (register "job-1" 0 new).2 in
  (∃ entry',
     _queue (apply_writes "job-1"
               ([WCancelled; WError "boom"] ++ [WSuccess (JStr "late")]) q)
       !! "job-1" = Some entry'
     ∧ status entry' = "success"
     ∧ event entry' = 0%nat
     ∧ (∀ r, WSuccess (JStr "late") = WSuccess r → result entry' = r)
     ∧ (∀ err, WSuccess (JStr "late") = WError err → error entry' = Some err))
  ∧ (∀ w', apply_write "job-1" w' (cleanup "job-1" q).2
           = (false, (cleanup "job-1" q).2)).
Proof.
  apply (terminal_write_last_writer_wins "job-1" (register "job-1" 0 new).2
           {| status := "pending"; result := JNull; error := None;
              event := 0%nat; created_at := 0 |}
           [WCancelled; WError "boom"] (WSuccess (JStr "late"))).
  reflexivity.
Defined.




End ResultQueueFacts.

(** ** Ordered dictionaries *)

Section OrderedDictFacts.
Import Executor.
Context {V : Type}.
Implicit Types (d : OrderedDict V) (k : string) (v : V).


Lemma od_get_Some k d v : od_get k d = Some v → (k, v) ∈ d.
Proof.
  induction d as [|[k' v'] d IH]; simpl; [done|].
  case_decide; subst.
  - intros [= ->]. left.
  - intros ?. right. auto.
Qed.












End OrderedDictFacts.

(** ** Pending-operations registry *)

Section ExecutorFacts.
Import Executor.




Lemma schedule_cleanup_frame job_id w :
  heap (_schedule_property_cleanup_for_job job_id w) = heap w
  ∧ next_addr (_schedule_property_cleanup_for_job job_id w) = next_addr w
  ∧ _pending_operations (_schedule_property_cleanup_for_job job_id w)
    = _pending_operations w
  ∧ posted (_schedule_property_cleanup_for_job job_id w) = posted w
  ∧ closed_loops (_schedule_property_cleanup_for_job job_id w) = closed_loops w.
Proof. unfold _schedule_property_cleanup_for_job. by destruct (timers_available w). Qed.















End ExecutorFacts.

(** ** SSE session queue *)

Section SSEFacts.
Import SSE.








End SSEFacts.


(** ** Main-thread callback and shutdown *)

Section HttpServerFacts.
Import HttpServer.

(** C3: when the result queue reports the job as cancelled at the
    moment the main-thread callback runs (its id is absent, or its
    status is "cancelled"), the callback returns leaving everything as
    it was: the operator is not called, the window manager is not
    touched, and the job's entry receives neither a success nor an
    error. *)
Theorem cancelled_job_is_skipped host tool_name arguments job_id w :
  ResultQueue.is_cancelled job_id (_result_queue (self w)) = true →
  execute_in_main_thread host tool_name arguments job_id w = w
  ∧ run_code_calls (execute_in_main_thread host tool_name arguments job_id w)
    = run_code_calls w
  ∧ ResultQueue.get_status job_id
      (_result_queue (self (execute_in_main_thread host tool_name arguments
                              job_id w)))
    = ResultQueue.get_status job_id (_result_queue (self w)).
Proof.
  intros Hc. unfold execute_in_main_thread. rewrite Hc. done.
Qed.

(** A job that is still pending is executed: the operator is called
    once and the entry ends up finalized, here with a success. *)
Lemma pending_job_is_executed :
  let q := (ResultQueue.register "job-1" 0 ResultQueue.new).2 in
  let w := set_result_queue q (world_of running_manager (Executor.initial ∅ true)) in
  let host := sample_host "{...}"
                (JObj [("status", JStr "success"); ("output", JStr "ok")]) in
  let w' := execute_in_main_thread host "blender_run_code"
              (JObj [("code", JStr "print('ok')")]) "job-1" w in
  run_code_calls w' = [(JStr "print('ok')", "job-1")]
  ∧ ResultQueue.get_status "job-1" (_result_queue (self w')) = Some "success"
  ∧ wm w' = ∅.
Proof. vm_compute. done. Qed.

Lemma cancelled_job_is_skipped_witness :
  let q := (ResultQueue.mark_cancelled "job-1"
              (ResultQueue.register "job-1" 0 ResultQueue.new).2).2 in
  let w := set_result_queue q (world_of running_manager (Executor.initial ∅ true)) in
  let host := sample_host "{...}"
                (JObj [("status", JStr "success"); ("output", JStr "ok")]) in
  execute_in_main_thread host "blender_run_code"
    (JObj [("code", JStr "print('ok')")]) "job-1" w = w
  ∧ execute_in_main_thread host "blender_run_code"
      (JObj [("code", JStr "print('ok')")]) "job-2" w = w.
Proof.
  split.
  - apply (cancelled_job_is_skipped _ _ _ "job-1"). reflexivity.
  - apply (cancelled_job_is_skipped _ _ _ "job-2"). reflexivity.
Defined.

Lemma shutdown_finally_clears env w :
  Executor._pending_operations (executor (shutdown_finally env w)) = []
  ∧ _shutdown_complete (self (shutdown_finally env w)) = true
  ∧ _mcp_instance (self (shutdown_finally env w)) = None.
Proof.
  unfold shutdown_finally. cbn.
  destruct (_mcp_instance (self w)), (mcp_clear env), (register_timer env);
    done.
Qed.

(** C9: [stop] never raises, and it returns true exactly when the
    server was running and the shutdown thread was started, in which
    case the manager is marked as shutting down; calling [stop] again,
    whether the first call started a shutdown, failed or found nothing
    to stop, returns false and changes nothing.  Whatever happens
    during the shutdown sequence, when it completes the
    pending-operations registry is empty, the completion event is set
    and the MCP instance is dropped. *)
Theorem stop_is_idempotent_and_shutdown_clears_pending :
  (∀ thread_start w,
     ((stop thread_start w).1.1 = true
      ↔ is_Some (_server_loop (self w)) ∧ thread_start = None)
     ∧ ((stop thread_start w).1.1 = true ↔ is_Some (stop thread_start w).2)
     ∧ ((stop thread_start w).1.1 = true →
        is_shutting_down (stop thread_start w).1.2 = true
        ∧ is_running true (stop thread_start w).1.2 = false)
     ∧ (_server_loop (self w) = None → stop thread_start w = (false, w, None))
     ∧ ∀ thread_start',
         stop thread_start' (stop thread_start w).1.2
         = (false, (stop thread_start w).1.2, None))
  ∧ (∀ env cap w,
       Executor._pending_operations (executor (graceful_shutdown env cap w)) = []
       ∧ _shutdown_complete (self (graceful_shutdown env cap w)) = true
       ∧ _mcp_instance (self (graceful_shutdown env cap w)) = None).
Proof.
  split.
  - intros thread_start w. unfold stop, is_shutting_down, is_running.
    destruct (_server_loop (self w)) as [l|] eqn:Hl, thread_start as [e|];
      simpl; rewrite ?Hl;
      repeat match goal with
             | |- _ ∧ _ => split
             | |- _ ↔ _ => split
             | |- _ → _ => intros ?
             | H : _ ∧ _ |- _ => destruct H
             | H : is_Some None |- _ => destruct (is_Some_None H)
             end;
      try done; eauto.
  - intros env cap w. apply shutdown_finally_clears.
Qed.

(** A full shutdown: with fifty operations pending and a thread that
    does not exit by itself, [stop] starts the shutdown, the sequence
    empties the registry, and a later [stop] is refused. *)
Lemma shutdown_scenario :
  ∃ ex,
    Executor.run (Executor.jobs 50) (Executor.initial ∅ true) = Ok ex
    ∧ length (Executor._pending_operations ex) = 50%nat
    ∧ let env := {| loop_is_running := Ok true; cancel_all_tasks := None;
                    alive_before_join := true; alive_after_join := true;
                    loop_is_closed := false; post_loop_stop := None;
                    mcp_clear := None; register_timer := None |} in
      let '(started, w1, cap) := stop None (world_of running_manager ex) in
      let w2 := graceful_shutdown env (default (mk_Captured None None None) cap) w1 in
      started = true
      ∧ effects w2 = [SetShouldExit 4; CancelAllTasks 1; JoinThread 2 1500;
                      PostLoopStop 1; JoinThread 2 500; ClearMcp 0;
                      RegisterClearFlag]
      ∧ Executor._pending_operations (executor w2) = []
      ∧ is_shutting_down w2 = true
      ∧ is_shutting_down (clear_flag w2) = false
      ∧ (stop None w2).1.1 = false.
Proof.
  eexists. split_and!; [vm_compute; reflexivity | vm_compute; reflexivity |].
  vm_compute. split_and!; reflexivity.
Qed.

Lemma set_error_absent job_id err q :
  ResultQueue._queue q !! job_id = None →
  ResultQueue.set_error job_id err q = (false, q).
Proof. intros H. unfold ResultQueue.set_error. by rewrite H. Qed.

Lemma set_success_absent job_id r q :
  ResultQueue._queue q !! job_id = None →
  ResultQueue.set_success job_id r q = (false, q).
Proof. intros H. unfold ResultQueue.set_success. by rewrite H. Qed.

(** [run_job] touches the result queue in one place only: the
    [set_success] that ends a successful run. *)
Lemma run_job_queue host tool_name arguments job_id w :
  match run_job host tool_name arguments job_id w with
  | (Some _, w') => _result_queue (self w') = _result_queue (self w)
  | (None, w') =>
      ∃ r, _result_queue (self w')
           = (ResultQueue.set_success job_id r (_result_queue (self w))).2
  end
  ∧ (length (run_code_calls (run_job host tool_name arguments job_id w).2)
     ≤ length (run_code_calls w) + 1)%nat.
Proof.
  unfold run_job.
  destruct (String.eqb tool_name "blender_run_code"); [|simpl; split; [done|lia]].
  destruct (py_get arguments "code" (JStr "")) as [code|e]; [|simpl; split; [done|lia]].
  destruct (run_code host code job_id (wm w)) as [[e|] wm1];
    [simpl; rewrite length_app; simpl; split; [done|lia] |].
  cbn [self wm run_code_calls].
  destruct (default (WStr "{}") (wm1 !! ("mcp_result_" +:+ job_id))) as [s0|v].
  - destruct (json_loads host s0) as [r|e];
      [|simpl; rewrite length_app; simpl; split; [done|lia]].
    destruct (py_get r "status" JNull) as [st|e];
      [|simpl; rewrite length_app; simpl; split; [done|lia]].
    destruct (is_str_eq st "success");
      [simpl; rewrite length_app; simpl; split; [eauto|lia] |].
    destruct (py_get r "error" (JStr "Unknown error"));
      simpl; rewrite length_app; simpl; split; [done|lia|done|lia].
  - destruct (py_get v "status" JNull) as [st|e];
      [|simpl; rewrite length_app; simpl; split; [done|lia]].
    destruct (is_str_eq st "success");
      [simpl; rewrite length_app; simpl; split; [eauto|lia] |].
    destruct (py_get v "error" (JStr "Unknown error"));
      simpl; rewrite length_app; simpl; split; [done|lia|done|lia].
Qed.

(** A job that is registered and not cancelled when the callback runs
    is finalized by it exactly once: whatever the operator does (return,
    raise, leave a malformed result), the entry ends with status
    "success" or "error", its event is set so that the waiting caller
    wakes up, the operator has been called at most once, and no other
    job's entry is touched. *)
Theorem callback_finalizes_live_job host tool_name arguments job_id w entry :
  ResultQueue._queue (_result_queue (self w)) !! job_id = Some entry →
  ResultQueue.status entry ≠ "cancelled" →
  let w' := execute_in_main_thread host tool_name arguments job_id w in
  (∃ entry',
     ResultQueue._queue (_result_queue (self w')) !! job_id = Some entry'
     ∧ (ResultQueue.status entry' = "success"
        ∨ ResultQueue.status entry' = "error")
     ∧ ResultQueue.event entry' = ResultQueue.event entry
     ∧ ResultQueue.event entry
       ∈ ResultQueue.events_set (_result_queue (self w')))
  ∧ (length (run_code_calls w') ≤ length (run_code_calls w) + 1)%nat
  ∧ ∀ other, other ≠ job_id →
      ResultQueue._queue (_result_queue (self w')) !! other
      = ResultQueue._queue (_result_queue (self w)) !! other.
Proof.
  intros Hin Hst w'. subst w'. unfold execute_in_main_thread.
  unfold ResultQueue.is_cancelled. rewrite Hin.
  rewrite bool_decide_eq_false_2 by done.
  pose proof (run_job_queue host tool_name arguments job_id w) as [Hq Hcalls].
  destruct (run_job host tool_name arguments job_id w) as [[e|] w1];
    simpl in Hcalls.
  - cbn [self _result_queue set_result_queue]. rewrite Hq.
    unfold ResultQueue.set_error. rewrite Hin. cbn.
    split_and!; [|done|].
    + eexists. rewrite lookup_insert_eq. split_and!; [done | by right | done |].
      set_solver.
    + intros other Hne. by rewrite lookup_insert_ne.
  - destruct Hq as [r ->]. unfold ResultQueue.set_success. rewrite Hin. cbn.
    split_and!; [|done|].
    + eexists. rewrite lookup_insert_eq. split_and!; [done | by left | done |].
      set_solver.
    + intros other Hne. by rewrite lookup_insert_ne.
Qed.

Lemma callback_finalizes_live_job_witness :
  let q := (ResultQueue.register "job-1" 0 ResultQueue.new).2 in
  let w := set_result_queue q (world_of running_manager (Executor.initial ∅ true)) in
  let host := sample_host "{...}" (JObj [("status", JStr "error");
                                         ("error", JStr "NameError: x")]) in
  let w' := execute_in_main_thread host "blender_run_code"
              (JObj [("code", JStr "x")]) "job-1" w in
  ResultQueue.get_result "job-1" (_result_queue (self w'))
  = Ok ("error", JNull, Some "NameError: x")
  ∧ ∃ entry',
      ResultQueue._queue (_result_queue (self w')) !! "job-1" = Some entry'
      ∧ (ResultQueue.status entry' = "success"
         ∨ ResultQueue.status entry' = "error")
      ∧ 0%nat ∈ ResultQueue.events_set (_result_queue (self w')).
Proof.
  intros q w host w'. split; [reflexivity|].
  destruct (callback_finalizes_live_job host "blender_run_code"
              (JObj [("code", JStr "x")]) "job-1" w
              {| ResultQueue.status := "pending"; ResultQueue.result := JNull;
                 ResultQueue.error := None; ResultQueue.event := 0%nat;
                 ResultQueue.created_at := 0 |})
    as [(entry' & Hin & Hst & _ & Hev) _]; [reflexivity | discriminate |].
  exists entry'. split_and!; [exact Hin | exact Hst | exact Hev].
Defined.

Lemma cleanup_removes job_id q :
  ResultQueue._queue (ResultQueue.cleanup job_id q).2 !! job_id = None.
Proof.
  unfold ResultQueue.cleanup.
  destruct (ResultQueue._queue q !! job_id) eqn:Hq; simpl; [|done].
  apply lookup_delete_eq.
Qed.

(** [execute_on_main_thread] never leaves its job behind: on every
    path (scheduling refused, timeout, success, tool error, entry
    gone), and whatever the rest of the process did while it waited,
    the job id is no longer in the result queue when the call ends. *)
Theorem caller_always_cleans_up
    tool_name arguments job_id now timer_register during w :
  ResultQueue._queue
    (_result_queue
       (self (execute_on_main_thread tool_name arguments job_id now
                timer_register during w).2))
  !! job_id = None.
Proof.
  unfold execute_on_main_thread. cbn [ResultQueue.register].
  destruct timer_register as [e|]; [apply cleanup_removes|].
  case_bool_decide.
  - destruct (ResultQueue.get_result _ _) as [[[st r] err]|e];
      [destruct (String.eqb st "success")|]; apply cleanup_removes.
  - apply cleanup_removes.
Qed.

(** When the job's event has not been set by the end of the wait, the
    caller gets [TimeoutError], and the work is not done behind its
    back: a callback that runs later skips the job and changes
    nothing, and a callback that had already passed the cancellation
    check when the caller gave up finds no entry to write to, so the
    result queue stays as the caller left it. *)
Theorem timeout_then_late_callback
    host tool_name arguments job_id now during w :
  let started :=
    set_result_queue
      (ResultQueue.register job_id now (_result_queue (self w))).2 w in
  ResultQueue.next_event (_result_queue (self w))
  ∉ ResultQueue.events_set (_result_queue (self (during started))) →
  let '(r, w') := execute_on_main_thread tool_name arguments job_id now
                    None during w in
  r = Raise (mk_exn TimeoutError timeout_msg)
  ∧ execute_in_main_thread host tool_name arguments job_id w' = w'
  ∧ _result_queue (self (finish_job host tool_name arguments job_id w'))
    = _result_queue (self w').
Proof.
  intros started Hunset.
  pose proof (caller_always_cleans_up tool_name arguments job_id now None
                during w) as Hgone.
  unfold execute_on_main_thread in *. cbn [ResultQueue.register] in *.
  fold started in Hgone |- *.
  rewrite bool_decide_eq_false_2 in Hgone |- * by done.
  cbn [snd] in Hgone.
  split_and!.
  - done.
  - unfold execute_in_main_thread, ResultQueue.is_cancelled.
    by rewrite Hgone.
  - unfold finish_job.
    pose proof (run_job_queue host tool_name arguments job_id
                  (set_result_queue
                     (ResultQueue.cleanup job_id
                        (_result_queue
                           (self
                              (set_result_queue
                                 (ResultQueue.mark_cancelled job_id
                                    (_result_queue (self (during started)))).2
                                 (during started))))).2
                     (set_result_queue
                        (ResultQueue.mark_cancelled job_id
                           (_result_queue (self (during started)))).2
                        (during started)))) as [Hq _].
    destruct (run_job _ _ _ _ _) as [[e|] w1].
    + cbn [self _result_queue set_result_queue]. rewrite Hq.
      by rewrite set_error_absent.
    + destruct Hq as [r ->]. by rewrite set_success_absent.
Qed.

Lemma timeout_then_late_callback_witness :
  let host := sample_host "{...}" (JObj [("status", JStr "success")]) in
  let w := world_of running_manager (Executor.initial ∅ true) in
  let '(r, w') := execute_on_main_thread "blender_run_code"
                    (JObj [("code", JStr "x")]) "job-1" 0 None (λ w, w) w in
  r = Raise (mk_exn TimeoutError timeout_msg)
  ∧ execute_in_main_thread host "blender_run_code"
      (JObj [("code", JStr "x")]) "job-1" w' = w'.
Proof.
  pose proof (timeout_then_late_callback
                (sample_host "{...}" (JObj [("status", JStr "success")]))
                "blender_run_code" (JObj [("code", JStr "x")]) "job-1" 0
                (λ w, w) (world_of running_manager (Executor.initial ∅ true)))
    as H.
  cbv zeta in H.
  destruct (execute_on_main_thread _ _ _ _ _ _ _) as [r w'].
  destruct H as (Hr & Hskip & _); [|by split].
  cbn. apply not_elem_of_empty.
Defined.

(** When the main thread runs the callback while the caller waits, the
    caller never times out: it returns the result the operator left
    when that reports success, and raises [RuntimeError] otherwise;
    the operator has run at most once. *)
Theorem callback_in_time_answers_caller host tool_name arguments job_id now w :
  let '(r, w') :=
    execute_on_main_thread tool_name arguments job_id now None
      (execute_in_main_thread host tool_name arguments job_id) w in
  ((∃ result, r = Ok result) ∨ (∃ msg, r = Raise (mk_exn RuntimeError msg)))
  ∧ (length (run_code_calls w') ≤ length (run_code_calls w) + 1)%nat.
Proof.
  unfold execute_on_main_thread. cbn [ResultQueue.register].
  set (entry := {| ResultQueue.status := "pending";
                   ResultQueue.result := JNull; ResultQueue.error := None;
                   ResultQueue.event :=
                     ResultQueue.next_event (_result_queue (self w));
                   ResultQueue.created_at := now |}).
  set (w1 := set_result_queue _ w).
  destruct (callback_finalizes_live_job host tool_name arguments job_id w1 entry)
    as [(entry' & Hin & Hst & _ & Hev) [Hcalls _]].
  { subst w1. cbn. apply lookup_insert_eq. }
  { done. }
  cbv zeta in Hin, Hst, Hev, Hcalls.
  rewrite bool_decide_eq_true_2 by exact Hev.
  unfold ResultQueue.get_result. rewrite Hin.
  destruct Hst as [-> | ->]; cbn; (split; [eauto | exact Hcalls]).
Qed.

End HttpServerFacts.


(** ** JSON-RPC dispatch and the /http endpoint *)

Section DispatchFacts.
Import Handlers Asgi.

Lemma lookup_handler_absent m (table : list (string * handler)) :
  m ∉ table.*1 → lookup_handler m table = None.
Proof.
  induction table as [|[n h] table IH]; simpl; [done|].
  intros [Hne Hrest]%not_elem_of_cons.
  destruct (String.eqb m n) eqn:Heq.
  - apply String.eqb_eq in Heq. done.
  - auto.
Qed.

Lemma lookup_handler_present m (table : list (string * handler)) :
  m ∈ table.*1 → is_Some (lookup_handler m table).
Proof.
  induction table as [|[n h] table IH]; simpl.
  - intros H%elem_of_nil. done.
  - intros [->|Hin]%elem_of_cons.
    + rewrite String.eqb_refl. eauto.
    + destruct (String.eqb m n); eauto.
Qed.

(** A request that carries an id and names a method absent from
    METHOD_HANDLERS makes [dispatch_request] raise [ValueError], which
    the /http endpoint turns into an error envelope with code -32602
    ("Invalid params"), echoing the id and the version of the request. *)
Theorem unknown_method_is_invalid_params mcp_server fields m :
  assoc_last "method" fields = Some (JStr m) →
  m ≠ "" →
  m ∉ METHOD_HANDLERS.*1 →
  default JNull (assoc_last "id" fields) ≠ JNull →
  dispatch_request mcp_server (JStr m) (default JNull (assoc_last "params" fields))
  = Raise (mk_exn ValueError ("Method '" +:+ m +:+ "' not supported"))
  ∧ rpc_endpoint mcp_server (Ok (JObj fields))
    = Ok (JSONResponse
            (JObj [("jsonrpc", default (JStr "2.0") (assoc_last "jsonrpc" fields));
                   ("id", default JNull (assoc_last "id" fields));
                   ("error",
                    JObj [("code", JNum (-32602));
                          ("message",
                           JStr ("Invalid params: Method '" +:+ m
                                 +:+ "' not supported"))])])
            200).
Proof.
  intros Hm Hne Hout Hid.
  assert (dispatch_request mcp_server (JStr m)
            (default JNull (assoc_last "params" fields))
          = Raise (mk_exn ValueError ("Method '" +:+ m +:+ "' not supported")))
    as Hd.
  { unfold dispatch_request. rewrite lookup_handler_absent by done. reflexivity. }
  split; [done|].
  unfold rpc_endpoint, py_get. cbn [mbind outcome_bind].
  rewrite Hm. cbn [default from_option id truthy].
  assert (negb (String.eqb m "") = true) as ->.
  { apply negb_true_iff, String.eqb_neq. done. }
  cbn [negb]. rewrite Hd. cbn [is_ValueError exn_type].
  destruct (default JNull (assoc_last "id" fields)); done.
Qed.

Lemma unknown_method_is_invalid_params_witness :
  rpc_endpoint (HttpServer.sample_server "")
    (Ok (JObj [("jsonrpc", JStr "2.0"); ("id", JNum 1);
               ("method", JStr "not/a/method")]))
  = Ok (JSONResponse
          (JObj [("jsonrpc", JStr "2.0"); ("id", JNum 1);
                 ("error",
                  JObj [("code", JNum (-32602));
                        ("message",
                         JStr "Invalid params: Method 'not/a/method' not supported")])])
          200).
Proof.
  apply (unknown_method_is_invalid_params (HttpServer.sample_server "")
           [("jsonrpc", JStr "2.0"); ("id", JNum 1);
            ("method", JStr "not/a/method")] "not/a/method").
  - reflexivity.
  - discriminate.
  - apply (proj1 (bool_decide_eq_false _)). reflexivity.
  - discriminate.
Defined.

(** A message without an id (or with a null id) that names a method is
    answered with 204 and no body, whatever the method is and whatever
    the dispatch does: return a value, raise [ValueError], or raise
    anything else. *)
Theorem notification_gets_no_content mcp_server fields :
  default JNull (assoc_last "id" fields) = JNull →
  truthy (default JNull (assoc_last "method" fields)) = true →
  rpc_endpoint mcp_server (Ok (JObj fields)) = Ok (EmptyResponse 204).
Proof.
  intros Hid Hm. unfold rpc_endpoint, py_get. cbn [mbind outcome_bind].
  rewrite Hm, Hid. cbn [negb].
  destruct (dispatch_request _ _ _) as [r|e]; [done|].
  by destruct (is_ValueError e).
Qed.

Lemma notification_gets_no_content_witness :
  rpc_endpoint (HttpServer.sample_server "")
    (Ok (JObj [("jsonrpc", JStr "2.0");
               ("method", JStr "notifications/initialized")]))
  = Ok (EmptyResponse 204)
  ∧ rpc_endpoint (HttpServer.sample_server "")
      (Ok (JObj [("jsonrpc", JStr "2.0"); ("id", JNull);
                 ("method", JStr "no/such/method")]))
    = Ok (EmptyResponse 204).
Proof.
  split; apply notification_gets_no_content; reflexivity.
Defined.

Lemma str_app_cons c (a b : string) : String c a +:+ b = String c (a +:+ b).
Proof. reflexivity. Qed.

Lemma str_length_app (a b : string) :
  String.length (a +:+ b) = (String.length a + String.length b)%nat.
Proof.
  induction a as [|c a IH]; [done|].
  rewrite str_app_cons. simpl. by rewrite IH.
Qed.

Lemma substring_prefix (n : nat) (s : string) :
  (n ≤ String.length s)%nat →
  String.length (String.substring 0 n s) = n
  ∧ ∃ rest, s = String.substring 0 n s +:+ rest.
Proof.
  revert s. induction n as [|n IH]; intros s Hn.
  - destruct s; (split; [done | by eexists]).
  - destruct s as [|c s]; simpl in Hn; [lia|].
    destruct (IH s) as [Hlen [rest Hrest]]; [lia|].
    simpl. split; [by rewrite Hlen|].
    exists rest. rewrite str_app_cons. by rewrite <- Hrest.
Qed.

Lemma limit_output_spec (limit : Z) (s : string) :
  0 ≤ limit →
  (limit < str_len s →
   limit_output limit s
   = str_prefix limit s +:+ truncation_notice limit (str_len s)
   ∧ str_len (str_prefix limit s) = limit
   ∧ ∃ rest, s = str_prefix limit s +:+ rest)
  ∧ (str_len s ≤ limit → limit_output limit s = s)
  ∧ str_len (limit_output limit s)
    ≤ limit + str_len (truncation_notice limit (str_len s)).
Proof.
  intros Hl. unfold limit_output, str_len, str_prefix.
  case_decide as Hbig.
  - destruct (substring_prefix (Z.to_nat limit) s) as [Hlen Hrest]; [lia|].
    split_and!.
    + intros _. split_and!; [done | lia | done].
    + lia.
    + rewrite str_length_app. lia.
  - split_and!; [lia | done | lia].
Qed.

(** tools/call, when the tool returns: the text sent back is the
    tool's result as a string if that has at most OUTPUT_SIZE_LIMIT
    (2 MiB) characters, and otherwise exactly its first
    OUTPUT_SIZE_LIMIT characters followed by a notice that states the
    original size, the limit and the number of characters cut.  In
    both cases at most OUTPUT_SIZE_LIMIT characters of the result are
    passed on. *)
Theorem tools_call_output_is_limited mcp_server params tool_name arguments r :
  py_get params "name" JNull = Ok (JStr tool_name) →
  missing_or_blank (JStr tool_name) = false →
  py_get params "arguments" (JObj []) = Ok arguments →
  call_tool mcp_server tool_name arguments = Ok r →
  ∃ text,
    handle_tools_call mcp_server params
    = Ok (JObj [("content",
                 JArr [JObj [("type", JStr "text"); ("text", JStr text)]])])
    ∧ (OUTPUT_SIZE_LIMIT < str_len (tool_str mcp_server r) →
       text = String.substring 0 (Z.to_nat OUTPUT_SIZE_LIMIT)
                (tool_str mcp_server r)
              +:+ nl +:+ nl +:+ "[OUTPUT TRUNCATED]" +:+ nl
              +:+ "Original size: "
              +:+ thousands (str_len (tool_str mcp_server r))
              +:+ " bytes" +:+ nl
              +:+ "Limit: " +:+ thousands OUTPUT_SIZE_LIMIT +:+ " bytes" +:+ nl
              +:+ "Truncated: "
              +:+ thousands (str_len (tool_str mcp_server r) - OUTPUT_SIZE_LIMIT)
              +:+ " bytes"
       ∧ str_len (String.substring 0 (Z.to_nat OUTPUT_SIZE_LIMIT)
                    (tool_str mcp_server r)) = OUTPUT_SIZE_LIMIT
       ∧ ∃ rest, tool_str mcp_server r
                 = String.substring 0 (Z.to_nat OUTPUT_SIZE_LIMIT)
                     (tool_str mcp_server r) +:+ rest)
    ∧ (str_len (tool_str mcp_server r) ≤ OUTPUT_SIZE_LIMIT →
       text = tool_str mcp_server r)
    ∧ str_len text
      ≤ OUTPUT_SIZE_LIMIT
        + str_len (truncation_notice OUTPUT_SIZE_LIMIT
                     (str_len (tool_str mcp_server r))).
Proof.
  intros Hname Hvalid Hargs Hcall.
  exists (limit_output OUTPUT_SIZE_LIMIT (tool_str mcp_server r)).
  destruct (limit_output_spec OUTPUT_SIZE_LIMIT (tool_str mcp_server r))
    as (Hbig & Hsmall & Hbound); [done|].
  split_and!; [| | done | done].
  - unfold handle_tools_call. rewrite Hname, Hargs. cbn [mbind outcome_bind].
    rewrite Hvalid, Hcall. reflexivity.
  - intros H. destruct (Hbig H) as (-> & Hlen & Hrest).
    split_and!; [| done | done].
    unfold truncation_notice, str_prefix. reflexivity.
Qed.

Lemma str_repeat_length c n : String.length (HttpServer.str_repeat c n) = n.
Proof. induction n as [|n IH]; simpl; [done | by rewrite IH]. Qed.

Lemma oversized_output_len :
  str_len HttpServer.oversized_output = OUTPUT_SIZE_LIMIT + 1.
Proof.
  unfold str_len, HttpServer.oversized_output.
  rewrite str_repeat_length, Z2Nat.id; [done|].
  unfold OUTPUT_SIZE_LIMIT. lia.
Qed.

Lemma tools_call_output_is_limited_witness :
  let params := JObj [("name", JStr "blender_run_code");
                      ("arguments", JObj [("code", JStr "print(1)")])] in
  (∃ text,
     handle_tools_call (HttpServer.sample_server "1") params
     = Ok (JObj [("content",
                  JArr [JObj [("type", JStr "text"); ("text", JStr text)]])])
     ∧ text = "1")
  ∧ OUTPUT_SIZE_LIMIT < str_len HttpServer.oversized_output
  ∧ ∃ text,
      handle_tools_call (HttpServer.sample_server HttpServer.oversized_output)
        params
      = Ok (JObj [("content",
                   JArr [JObj [("type", JStr "text"); ("text", JStr text)]])])
      ∧ str_len (String.substring 0 (Z.to_nat OUTPUT_SIZE_LIMIT)
                   HttpServer.oversized_output) = OUTPUT_SIZE_LIMIT
      ∧ str_len text
        ≤ OUTPUT_SIZE_LIMIT
          + str_len (truncation_notice OUTPUT_SIZE_LIMIT
                       (str_len HttpServer.oversized_output)).
Proof.
  intros params. split_and!.
  - destruct (tools_call_output_is_limited (HttpServer.sample_server "1")
                params "blender_run_code"
                (JObj [("code", JStr "print(1)")]) "1")
      as (text & Hcall & _ & Hsmall & _); [reflexivity..|].
    exists text. split; [exact Hcall|].
    apply Hsmall. vm_compute. discriminate.
  - rewrite oversized_output_len. lia.
  - destruct (tools_call_output_is_limited
                (HttpServer.sample_server HttpServer.oversized_output)
                params "blender_run_code"
                (JObj [("code", JStr "print(1)")]) HttpServer.oversized_output)
      as (text & Hcall & Hbig & _ & Hbound); [reflexivity..|].
    exists text. split_and!; [exact Hcall | | exact Hbound].
    apply Hbig. change (OUTPUT_SIZE_LIMIT < str_len HttpServer.oversized_output).
    rewrite oversized_output_len. lia.
Defined.

(** A tool that raises is not a protocol failure: tools/call answers
    with a result whose content is the error text and whose isError
    flag is set, and the /http endpoint sends it as a normal result.
    A resource that cannot be read is a protocol failure: resources/read
    raises, and the endpoint sends an error envelope with code -32603. *)
Theorem tool_errors_are_results_resource_errors_are_not
    mcp_server fields tool_name arguments uri e :
  default JNull (assoc_last "id" fields) ≠ JNull →
  (assoc_last "method" fields = Some (JStr "tools/call") →
   assoc_last "params" fields
   = Some (JObj [("name", JStr tool_name); ("arguments", arguments)]) →
   missing_or_blank (JStr tool_name) = false →
   call_tool mcp_server tool_name arguments = Raise e →
   rpc_endpoint mcp_server (Ok (JObj fields))
   = Ok (JSONResponse
           (JObj [("jsonrpc", default (JStr "2.0") (assoc_last "jsonrpc" fields));
                  ("id", default JNull (assoc_last "id" fields));
                  ("result",
                   JObj [("content",
                          JArr [JObj [("type", JStr "text");
                                      ("text",
                                       JStr ("Tool execution failed: "
                                             +:+ exn_name e +:+ ": "
                                             +:+ exn_str e))]]);
                         ("isError", JBool true)])])
           200))
  ∧ (assoc_last "method" fields = Some (JStr "resources/read") →
     assoc_last "params" fields = Some (JObj [("uri", JStr uri)]) →
     missing_or_blank (JStr uri) = false →
     read_resource mcp_server uri = Raise e →
     rpc_endpoint mcp_server (Ok (JObj fields))
     = Ok (JSONResponse
             (JObj [("jsonrpc", default (JStr "2.0") (assoc_last "jsonrpc" fields));
                    ("id", default JNull (assoc_last "id" fields));
                    ("error",
                     JObj [("code", JNum (-32603));
                           ("message",
                            JStr ("Internal error: Resource read failed: "
                                  +:+ exn_name e +:+ ": " +:+ exn_str e))])])
             200)).
Proof.
  intros Hid. split.
  - intros Hm Hp Hvalid Hcall.
    unfold rpc_endpoint, py_get. cbn [mbind outcome_bind].
    rewrite Hm, Hp. cbn [default from_option id truthy String.eqb negb].
    change (dispatch_request mcp_server (JStr "tools/call")
              (JObj [("name", JStr tool_name); ("arguments", arguments)]))
      with (handle_tools_call mcp_server
              (JObj [("name", JStr tool_name); ("arguments", arguments)])).
    unfold handle_tools_call.
    assert (py_get (JObj [("name", JStr tool_name); ("arguments", arguments)])
              "name" JNull = Ok (JStr tool_name)) as -> by reflexivity.
    assert (py_get (JObj [("name", JStr tool_name); ("arguments", arguments)])
              "arguments" (JObj []) = Ok arguments) as -> by reflexivity.
    cbn [mbind outcome_bind]. rewrite Hvalid, Hcall.
    cbn [mbind outcome_bind try_except].
    destruct (default JNull (assoc_last "id" fields)); done.
  - intros Hm Hp Hvalid Hread.
    unfold rpc_endpoint, py_get. cbn [mbind outcome_bind].
    rewrite Hm, Hp. cbn [default from_option id truthy String.eqb negb].
    change (dispatch_request mcp_server (JStr "resources/read")
              (JObj [("uri", JStr uri)]))
      with (handle_resources_read mcp_server (JObj [("uri", JStr uri)])).
    unfold handle_resources_read.
    assert (py_get (JObj [("uri", JStr uri)]) "uri" JNull = Ok (JStr uri))
      as -> by reflexivity.
    cbn [mbind outcome_bind]. rewrite Hvalid, Hread.
    cbn [mbind outcome_bind try_except is_ValueError exn_type].
    destruct (default JNull (assoc_last "id" fields)); done.
Qed.

Lemma tool_errors_are_results_resource_errors_are_not_witness :
  rpc_endpoint (HttpServer.sample_server "")
    (Ok (JObj [("id", JNum 7); ("method", JStr "tools/call");
               ("params", JObj [("name", JStr "nope");
                                ("arguments", JObj [])])]))
  = Ok (JSONResponse
          (JObj [("jsonrpc", JStr "2.0"); ("id", JNum 7);
                 ("result",
                  JObj [("content",
                         JArr [JObj [("type", JStr "text");
                                     ("text",
                                      JStr "Tool execution failed: ValueError: Tool 'nope' not found")]]);
                        ("isError", JBool true)])])
          200)
  ∧ rpc_endpoint (HttpServer.sample_server "")
      (Ok (JObj [("id", JNum 8); ("method", JStr "resources/read");
                 ("params", JObj [("uri", JStr "blender://nope")])]))
    = Ok (JSONResponse
            (JObj [("jsonrpc", JStr "2.0"); ("id", JNum 8);
                   ("error",
                    JObj [("code", JNum (-32603));
                          ("message",
                           JStr "Internal error: Resource read failed: ValueError: Resource 'blender://nope' not found")])])
            200).
Proof.
  split.
  - apply (tool_errors_are_results_resource_errors_are_not
             (HttpServer.sample_server "")
             [("id", JNum 7); ("method", JStr "tools/call");
              ("params", JObj [("name", JStr "nope"); ("arguments", JObj [])])]
             "nope" (JObj []) ""
             (mk_exn ValueError "Tool 'nope' not found"));
      [discriminate | reflexivity..].
  - apply (tool_errors_are_results_resource_errors_are_not
             (HttpServer.sample_server "")
             [("id", JNum 8); ("method", JStr "resources/read");
              ("params", JObj [("uri", JStr "blender://nope")])]
             "" JNull "blender://nope"
             (mk_exn ValueError "Resource 'blender://nope' not found"));
      [discriminate | reflexivity..].
Defined.

(** Every JSON object posted to /http is answered, never with an
    escaping exception: either with 204 and no body, which happens only
    for a message without id that names a method, or with status 200
    and an object holding the version and id of the request and exactly
    one of "result" and "error".  A body that cannot be parsed is
    answered with status 400 and code -32700; a JSON value that is not
    an object makes the endpoint raise [AttributeError]. *)
Theorem rpc_endpoint_answers mcp_server :
  (∀ fields,
     (rpc_endpoint mcp_server (Ok (JObj fields)) = Ok (EmptyResponse 204)
      ∧ default JNull (assoc_last "id" fields) = JNull
      ∧ truthy (default JNull (assoc_last "method" fields)) = true)
     ∨ ∃ k v,
         (k = "result" ∨ k = "error")
         ∧ rpc_endpoint mcp_server (Ok (JObj fields))
           = Ok (JSONResponse
                   (JObj [("jsonrpc",
                           default (JStr "2.0") (assoc_last "jsonrpc" fields));
                          ("id", default JNull (assoc_last "id" fields));
                          (k, v)])
                   200))
  ∧ (∀ e,
       rpc_endpoint mcp_server (Raise e)
       = Ok (JSONResponse
               (JObj [("jsonrpc", JStr "2.0"); ("id", JNull);
                      ("error",
                       JObj [("code", JNum (-32700));
                             ("message", JStr ("Parse error: " +:+ exn_str e))])])
               400))
  ∧ (∀ data,
       (∀ fields, data ≠ JObj fields) →
       ∃ msg, rpc_endpoint mcp_server (Ok data)
              = Raise (mk_exn AttributeError msg)).
Proof.
  split_and!.
  - intros fields. unfold rpc_endpoint, py_get. cbn [mbind outcome_bind].
    destruct (truthy (default JNull (assoc_last "method" fields))) eqn:Hm;
      cbn [negb].
    + destruct (dispatch_request _ _ _) as [r|e];
        [|destruct (is_ValueError e)];
        (destruct (default JNull (assoc_last "id" fields)) eqn:Hid;
         [left; done | right; eexists _, _; split; [|reflexivity]; auto ..]).
    + right. eexists _, _. split; [|reflexivity]. auto.
  - done.
  - intros data Hdata. unfold rpc_endpoint, py_get.
    destruct data; try (eexists; reflexivity).
    by destruct (Hdata fields).
Qed.

(** A message without a usable method name (absent, null, empty, zero
    or any other falsy value) is answered with the error envelope
    -32600 "Invalid Request", also when it has no id. *)
Theorem missing_method_is_invalid_request mcp_server fields :
  truthy (default JNull (assoc_last "method" fields)) = false →
  rpc_endpoint mcp_server (Ok (JObj fields))
  = Ok (JSONResponse
          (JObj [("jsonrpc", default (JStr "2.0") (assoc_last "jsonrpc" fields));
                 ("id", default JNull (assoc_last "id" fields));
                 ("error",
                  JObj [("code", JNum (-32600));
                        ("message", JStr "Invalid Request: method is required")])])
          200).
Proof.
  intros Hm. unfold rpc_endpoint, py_get. cbn [mbind outcome_bind].
  by rewrite Hm.
Qed.

Lemma missing_method_is_invalid_request_witness :
  rpc_endpoint (HttpServer.sample_server "") (Ok (JObj [("jsonrpc", JStr "2.0")]))
  = Ok (JSONResponse
          (JObj [("jsonrpc", JStr "2.0"); ("id", JNull);
                 ("error",
                  JObj [("code", JNum (-32600));
                        ("message", JStr "Invalid Request: method is required")])])
          200).
Proof.
  apply (missing_method_is_invalid_request (HttpServer.sample_server "")
           [("jsonrpc", JStr "2.0")]).
  reflexivity.
Defined.

(** initialize never negotiates an unsupported protocol version: the
    answer carries the version the client asked for when that is one
    of "2024-11-05" and "2025-06-18", and "2024-11-05" in every other
    case, also when the client names none. *)
Theorem initialize_negotiates_supported_version mcp_server pfields :
  ∃ v rest,
    handle_initialize mcp_server (JObj pfields)
    = Ok (JObj (("protocolVersion", JStr v) :: rest))
    ∧ (v = "2024-11-05" ∨ v = "2025-06-18")
    ∧ (∀ s, assoc_last "protocolVersion" pfields = Some (JStr s) →
            (s = "2024-11-05" ∨ s = "2025-06-18") → v = s)
    ∧ (assoc_last "protocolVersion" pfields = None → v = "2024-11-05").
Proof.
  unfold handle_initialize, py_get. cbn [mbind outcome_bind].
  destruct (assoc_last "protocolVersion" pfields) as [[| | |s| |]|] eqn:Hv;
    cbn [default from_option id existsb is_str_eq orb];
    try (eexists _, _; split; [reflexivity|];
         split_and!; [by left | intros ?; congruence || done | done]).
  destruct (String.eqb s "2024-11-05") eqn:H1; cbn [orb].
  - apply String.eqb_eq in H1 as ->.
    eexists _, _. split; [reflexivity|].
    split_and!; [by left | by intros ? [= <-] | done].
  - destruct (String.eqb s "2025-06-18") eqn:H2; cbn [orb].
    + apply String.eqb_eq in H2 as ->.
      eexists _, _. split; [reflexivity|].
      split_and!; [by right | by intros ? [= <-] | done].
    + apply String.eqb_neq in H1, H2.
      eexists _, _. split; [reflexivity|].
      split_and!; [by left | | done].
      intros ? [= <-] [?|?]; done.
Qed.

End DispatchFacts.


(** ** Middlewares *)

Section MiddlewareFacts.
Import Middleware.

Lemma prefix_nonempty (p s : string) :
  p ≠ "" → String.prefix p s = true → String.eqb s "" = false.
Proof. intros Hp. destruct s; [destruct p; done | done]. Qed.

(** Authentication decides exactly as follows.  Requests for /health,
    and all requests when authentication is not required or no token
    is configured, pass.  Otherwise a request passes if and only if its
    Authorization header starts with "Bearer " and carries, up to
    surrounding white space, the configured token, or the server is not
    in network mode and the query parameter "token" equals the
    configured token; in network mode a token in the URL never
    authenticates.  Every other request is answered 401 with code
    -32001. *)
Theorem auth_dispatch_decides mw request :
  ((path request = "/health" ∨ auth_required mw = false ∨ auth_token mw = "")
   → auth_dispatch mw request = CallNext)
  ∧ (path request ≠ "/health" → auth_required mw = true →
     auth_token mw ≠ "" →
     (auth_dispatch mw request = CallNext
      ↔ (∃ h, authorization request = Some h
              ∧ String.prefix "Bearer " h = true
              ∧ strip (str_drop 7 h) = auth_token mw)
        ∨ (network_access mw = false
           ∧ query_token request = Some (auth_token mw)))
     ∧ (auth_dispatch mw request = CallNext
        ∨ ∃ message,
            auth_dispatch mw request
            = Reply {| status_code := 401;
                       body := Some (rpc_error (-32001) message);
                       headers := [] |})).
Proof.
  split.
  - unfold auth_dispatch. intros [Hp | [Hr | Ht]].
    + by rewrite Hp.
    + rewrite Hr. by destruct (String.eqb _ _).
    + rewrite Ht. by destruct (String.eqb _ _), (auth_required mw).
  - intros Hp Hr Ht. unfold auth_dispatch.
    apply String.eqb_neq in Hp, Ht. rewrite Hp, Hr, Ht. cbn [negb].
    destruct (authorization request) as [h|] eqn:Hh.
    + destruct (String.prefix "Bearer " h) eqn:Hpre.
      * rewrite (prefix_nonempty "Bearer " h) by done. cbn [negb andb].
        destruct (String.eqb (strip (str_drop 7 h)) (auth_token mw)) eqn:Htok.
        -- apply String.eqb_eq in Htok. rewrite Htok, Ht. cbn.
           split; [|by left]. split; [|done]. intros _. left. eauto.
        -- rewrite andb_false_r. apply String.eqb_neq in Htok.
           destruct (query_token request) as [qt|] eqn:Hq.
           ++ destruct (String.eqb qt "") eqn:Hqe.
              { apply String.eqb_eq in Hqe as ->. split; [|right; eauto].
                apply String.eqb_neq in Ht.
                split; [done|]. intros [(h' & [= <-] & _ & ?) | [_ [= ?]]]; done. }
              destruct (network_access mw) eqn:Hn.
              { split; [|right; eauto].
                split; [done|]. intros [(h' & [= <-] & _ & ?) | [? _]]; done. }
              destruct (String.eqb qt (auth_token mw)) eqn:Hqt.
              { apply String.eqb_eq in Hqt as ->.
                split; [|by left]. split; [|done]. intros _. by right. }
              apply String.eqb_neq in Hqt. split; [|right; eauto].
              split; [done|].
              intros [(h' & [= <-] & _ & ?) | [_ [= ?]]]; done.
           ++ split; [|right; eauto]. split; [done|].
              intros [(h' & [= <-] & _ & ?) | [_ ?]]; done.
      * rewrite andb_false_r. cbn [andb].
        destruct (query_token request) as [qt|] eqn:Hq.
        -- destruct (String.eqb qt "") eqn:Hqe.
           { apply String.eqb_eq in Hqe as ->. split; [|right; eauto].
             apply String.eqb_neq in Ht.
             split; [done|]. intros [(h' & [= <-] & ? & _) | [_ [= ?]]]; congruence. }
           destruct (network_access mw) eqn:Hn.
           { split; [|right; eauto].
             split; [done|]. intros [(h' & [= <-] & ? & _) | [? _]]; congruence. }
           destruct (String.eqb qt (auth_token mw)) eqn:Hqt.
           { apply String.eqb_eq in Hqt as ->.
             split; [|by left]. split; [|done]. intros _. by right. }
           apply String.eqb_neq in Hqt. split; [|right; eauto].
           split; [done|].
           intros [(h' & [= <-] & ? & _) | [_ [= ?]]]; congruence.
        -- split; [|right; eauto]. split; [done|].
           intros [(h' & [= <-] & ? & _) | [_ ?]]; congruence.
    + destruct (query_token request) as [qt|] eqn:Hq.
      * destruct (String.eqb qt "") eqn:Hqe.
        { apply String.eqb_eq in Hqe as ->. split; [|right; eauto].
          apply String.eqb_neq in Ht.
          split; [done|]. intros [(h' & ? & _) | [_ [= ?]]]; done. }
        destruct (network_access mw) eqn:Hn.
        { split; [|right; eauto].
          split; [done|]. intros [(h' & ? & _) | [? _]]; done. }
        destruct (String.eqb qt (auth_token mw)) eqn:Hqt.
        { apply String.eqb_eq in Hqt as ->.
          split; [|by left]. split; [|done]. intros _. by right. }
        apply String.eqb_neq in Hqt. split; [|right; eauto].
        split; [done|].
        intros [(h' & ? & _) | [_ [= ?]]]; done.
      * split; [|right; eauto]. split; [done|].
        intros [(h' & ? & _) | [_ ?]]; done.
Qed.

Lemma auth_dispatch_decides_witness :
  let mw := {| auth_token := "s3cret-token-0123456789";
               auth_required := true; network_access := true |} in
  auth_dispatch mw {| path := "/http";
                      authorization := Some "Bearer  s3cret-token-0123456789 ";
                      query_token := None |} = CallNext
  ∧ auth_dispatch mw {| path := "/sse"; authorization := None;
                        query_token := Some "s3cret-token-0123456789" |}
    ≠ CallNext
  ∧ auth_dispatch mw {| path := "/health"; authorization := None;
                        query_token := None |} = CallNext.
Proof.
  intros mw. split_and!.
  - destruct (auth_dispatch_decides mw
                {| path := "/http";
                   authorization := Some "Bearer  s3cret-token-0123456789 ";
                   query_token := None |}) as [_ H].
    destruct H as [Hiff _]; [discriminate | reflexivity | discriminate |].
    apply Hiff. left. eexists. split_and!; reflexivity.
  - destruct (auth_dispatch_decides mw
                {| path := "/sse"; authorization := None;
                   query_token := Some "s3cret-token-0123456789" |}) as [_ H].
    destruct H as [Hiff _]; [discriminate | reflexivity | discriminate |].
    intros Hc. apply Hiff in Hc.
    destruct Hc as [(h & Hh & _) | [Hn _]]; discriminate.
  - apply (proj1 (auth_dispatch_decides _ _)). left. reflexivity.
Defined.

Lemma stats_dispatch_counts next stats :
  request_count (stats_dispatch next stats).2 = request_count stats + 1
  ∧ error_count (stats_dispatch next stats).2
    = error_count stats + (if is_failure next then 1 else 0).
Proof.
  unfold stats_dispatch, is_failure. destruct next as [r|e]; simpl.
  - case_decide.
    + rewrite bool_decide_eq_true_2 by done. simpl. lia.
    + rewrite bool_decide_eq_false_2 by done. simpl. lia.
  - lia.
Qed.

(** The statistics middleware counts every request once, and counts as
    errors exactly the requests that end in a response with status 500
    or more or in an exception; so the error count never exceeds the
    request count. *)
Theorem stats_count_requests_and_failures nexts stats :
  request_count (stats_after nexts stats)
  = request_count stats + Z.of_nat (length nexts)
  ∧ error_count (stats_after nexts stats)
    = error_count stats + Z.of_nat (length (filter (λ n, is_failure n = true) nexts))
  ∧ (error_count stats ≤ request_count stats →
     error_count (stats_after nexts stats)
     ≤ request_count (stats_after nexts stats)).
Proof.
  revert stats. induction nexts as [|next nexts IH]; intros stats.
  - simpl. split_and!; lia.
  - unfold stats_after in *. cbn [foldl].
    destruct (IH (stats_dispatch next stats).2) as (IHr & IHe & IHle).
    destruct (stats_dispatch_counts next stats) as [Hr He].
    rewrite IHr, IHe, Hr, He. rewrite filter_cons.
    pose proof (length_filter (λ n, is_failure n = true) nexts) as Hlen.
    destruct (is_failure next) eqn:Hf.
    + rewrite decide_True by done. cbn [length]. split_and!; lia.
    + rewrite decide_False by done. cbn [length]. split_and!; lia.
Qed.

Lemma stats_count_requests_and_failures_witness :
  let nexts := [Ok {| status_code := 200; body := None; headers := [] |};
                Ok {| status_code := 503; body := None; headers := [] |};
                Raise (mk_exn RuntimeError "boom");
                Ok {| status_code := 401; body := None; headers := [] |}] in
  let stats := stats_after nexts {| request_count := 0; error_count := 0 |} in
  request_count stats = 4 ∧ error_count stats = 2
  ∧ error_count stats ≤ request_count stats.
Proof.
  intros nexts stats.
  destruct (stats_count_requests_and_failures nexts
              {| request_count := 0; error_count := 0 |}) as (Hr & He & Hle).
  split_and!; [exact Hr | exact He | apply Hle; reflexivity].
Defined.

Lemma shutdown_steps_self env cap w :
  HttpServer.self (HttpServer.shutdown_steps env cap w).2 = HttpServer.self w
  ∧ HttpServer.executor (HttpServer.shutdown_steps env cap w).2
    = HttpServer.executor w.
Proof.
  unfold HttpServer.shutdown_steps.
  destruct cap as [[l|] [u|] [t|]], env as [[[|]|e1] [e2|] [|] [|] [|] [e3|] m r];
    cbn; repeat (match goal with
                 | |- context [if ?b then _ else _] => destruct b
                 end; cbn); done.
Qed.

Lemma shutdown_finally_flag env w :
  HttpServer._shutting_down (HttpServer.self (HttpServer.shutdown_finally env w))
  = match HttpServer.register_timer env with
    | None => HttpServer._shutting_down (HttpServer.self w)
    | Some _ => false
    end.
Proof.
  unfold HttpServer.shutdown_finally. cbn.
  destruct (HttpServer._mcp_instance (HttpServer.self w)),
    (HttpServer.mcp_clear env), (HttpServer.register_timer env); done.
Qed.

(** From the moment [stop] has started a shutdown, the shutdown
    middleware answers every request with 503, a Retry-After of five
    seconds and code -32000, and it keeps doing so after the shutdown
    sequence has completed, until the [clear_flag] timer runs; if that
    timer cannot be registered, requests pass as soon as the sequence
    has completed. *)
Theorem requests_rejected_during_shutdown w env cap :
  (HttpServer.stop None w).1.1 = true →
  let refused :=
    Reply {| status_code := 503;
             body := Some (JObj [("jsonrpc", JStr "2.0"); ("id", JNull);
                                 ("error",
                                  JObj [("code", JNum (-32000));
                                        ("message",
                                         JStr "Server is shutting down. Please retry after the server restarts.")])]);
             headers := [("Retry-After", "5")] |} in
  let w1 := (HttpServer.stop None w).1.2 in
  let w2 := HttpServer.graceful_shutdown env cap w1 in
  shutdown_dispatch (HttpServer.is_shutting_down w1) = refused
  ∧ (HttpServer.register_timer env = None →
     shutdown_dispatch (HttpServer.is_shutting_down w2) = refused
     ∧ shutdown_dispatch
         (HttpServer.is_shutting_down (HttpServer.clear_flag w2)) = CallNext)
  ∧ (HttpServer.register_timer env ≠ None →
     shutdown_dispatch (HttpServer.is_shutting_down w2) = CallNext).
Proof.
  unfold HttpServer.stop.
  destruct (HttpServer._server_loop (HttpServer.self w));
    [|intros H; simpl in H; discriminate].
  intros _. cbn [fst snd]. unfold HttpServer.is_shutting_down.
  unfold HttpServer.graceful_shutdown. rewrite shutdown_finally_flag.
  rewrite (proj1 (shutdown_steps_self _ _ _)).
  split_and!.
  - done.
  - intros ->. done.
  - intros Hreg. by destruct (HttpServer.register_timer env).
Qed.

Lemma requests_rejected_during_shutdown_witness :
  let w := HttpServer.world_of HttpServer.running_manager
             (Executor.initial ∅ true) in
  shutdown_dispatch (HttpServer.is_shutting_down w) = CallNext
  ∧ shutdown_dispatch
      (HttpServer.is_shutting_down (HttpServer.stop None w).1.2) ≠ CallNext.
Proof.
  intros w. split; [reflexivity|].
  destruct (requests_rejected_during_shutdown w
              {| HttpServer.loop_is_running := Ok false;
                 HttpServer.cancel_all_tasks := None;
                 HttpServer.alive_before_join := false;
                 HttpServer.alive_after_join := false;
                 HttpServer.loop_is_closed := false;
                 HttpServer.post_loop_stop := None;
                 HttpServer.mcp_clear := None;
                 HttpServer.register_timer := None |}
              (HttpServer.mk_Captured None None None)) as (H1 & _).
  { reflexivity. }
  rewrite H1. discriminate.
Defined.

End MiddlewareFacts.
